(** * Order-book ingestion pipeline: header resolution, cell coercion, row filter

    A shallow embedding of the spreadsheet normalisation code of
    [admin/app.py] ([clean_header], [parse_date_to_date],
    [parse_price_to_float], [standardize_columns], [normalize_df]) and of the
    mask applied by the table editor in [admin/pages/table_view.py].

    Conventions of the model.
    - Python [str] values are [string]s over ASCII; the whitespace characters
      are the ASCII ones that [str.strip] and the regex class [\s] recognise
      (codes 9-13, 28-31 and 32), the digits are ['0'..'9'].
    - A Python [float] is represented by the decimal number it was read from
      (sign, mantissa, power of ten); rounding to binary64 is not modelled.
    - [pd.to_datetime(x, errors="coerce")] belongs to pandas, not to this
      repository: it is a parameter of the development.
    - Python exceptions are explicit: a computation is [Ok v] or [Raise e]. *)

From Stdlib Require Import String Ascii List Bool Arith ZArith NArith Lia.
From Stdlib Require Import Numbers.DecimalString QArith_base.
From Stdlib Require Import DecimalPos DecimalN.
Import ListNotations.

Local Close Scope Q_scope.
Local Open Scope string_scope.
Local Open Scope list_scope.

(** ** Python string primitives *)

Module PyStr.

Local Open Scope string_scope.

Definition code (c : ascii) : nat := nat_of_ascii c.

(** [str.isspace] on one ASCII character; also the regex class [\s]. *)
Definition isspace (c : ascii) : bool :=
  (((9 <=? code c) && (code c <=? 13))
   || ((28 <=? code c) && (code c <=? 32)))%nat.

(** The regex class [\d], equivalently [[0-9]], on ASCII. *)
Definition isdigit (c : ascii) : bool :=
  ((48 <=? code c) && (code c <=? 57))%nat.

Definition isupper (c : ascii) : bool :=
  ((65 <=? code c) && (code c <=? 90))%nat.

Definition lower_char (c : ascii) : ascii :=
  if isupper c then ascii_of_nat (code c + 32) else c.

(** [s.lower()] *)
Fixpoint lower (s : string) : string :=
  match s with
  | EmptyString => EmptyString
  | String c t => String (lower_char c) (lower t)
  end.

(** [s.lstrip()] *)
Fixpoint lstrip (s : string) : string :=
  match s with
  | EmptyString => EmptyString
  | String c t => if isspace c then lstrip t else s
  end.

Definition is_empty (s : string) : bool :=
  match s with EmptyString => true | _ => false end.

(** [s.rstrip()] *)
Fixpoint rstrip (s : string) : string :=
  match s with
  | EmptyString => EmptyString
  | String c t =>
      let t' := rstrip t in
      if isspace c && is_empty t' then EmptyString else String c t'
  end.

(** [s.strip()] *)
Definition strip (s : string) : string := lstrip (rstrip s).

(** [re.sub(r"\s+", " ", s)]: every maximal run of whitespace becomes one
    space.  [in_run] tells that the previous character was whitespace. *)
Fixpoint sub_ws_run (in_run : bool) (s : string) : string :=
  match s with
  | EmptyString => EmptyString
  | String c t =>
      if isspace c
      then if in_run then sub_ws_run true t else String " " (sub_ws_run true t)
      else String c (sub_ws_run false t)
  end.

Definition sub_ws (s : string) : string := sub_ws_run false s.

(** [s.replace(c, "")] for a one-character [c]. *)
Fixpoint remove_char (c : ascii) (s : string) : string :=
  match s with
  | EmptyString => EmptyString
  | String a t => if Ascii.eqb a c then remove_char c t else String a (remove_char c t)
  end.

(** Keeps the characters satisfying [p]: [re.sub("[^...]", "", s)] for the
    class described by [p]. *)
Fixpoint keep (p : ascii -> bool) (s : string) : string :=
  match s with
  | EmptyString => EmptyString
  | String a t => if p a then String a (keep p t) else keep p t
  end.

Fixpoint forallb (p : ascii -> bool) (s : string) : bool :=
  match s with
  | EmptyString => true
  | String a t => p a && forallb p t
  end.

(** [x in (a, b, ...)] for strings. *)
Fixpoint mem (x : string) (l : list string) : bool :=
  match l with
  | [] => false
  | y :: l' => String.eqb x y || mem x l'
  end.

(** [s.split()]: the maximal runs of non-whitespace characters.  [cur] is
    the word being read. *)
Fixpoint split_run (cur : string) (s : string) : list string :=
  match s with
  | EmptyString => if is_empty cur then [] else [cur]
  | String c t =>
      if isspace c
      then if is_empty cur then split_run EmptyString t
           else cur :: split_run EmptyString t
      else split_run (cur ++ String c EmptyString) t
  end.

Definition split (s : string) : list string := split_run EmptyString s.

(** [" ".join(l)] *)
Fixpoint join_sp (l : list string) : string :=
  match l with
  | [] => EmptyString
  | [w] => w
  | w :: l' => w ++ String " " (join_sp l')
  end.

End PyStr.

(** ** Configuration of [app.py] *)

Definition REQUIRED_COLS : list string :=
  [ "WO"; "Quote"; "PO Number"; "Status"; "Customer Name";
    "Model Description"; "Scheduled Date"; "Price" ].

Definition COLUMN_ALIASES : list (string * string) :=
  [ ("wo", "WO"); ("work order", "WO"); ("workorder", "WO");
    ("quote", "Quote"); ("quotation", "Quote");
    ("po number", "PO Number"); ("po #", "PO Number"); ("po#", "PO Number");
    ("ponumber", "PO Number"); ("purchase order", "PO Number");
    ("status", "Status");
    ("customer", "Customer Name"); ("customer name", "Customer Name");
    ("client", "Customer Name"); ("client name", "Customer Name");
    ("model description", "Model Description"); ("description", "Model Description");
    ("model", "Model Description");
    ("scheduled date", "Scheduled Date"); ("schedule date", "Scheduled Date");
    ("scheduled", "Scheduled Date"); ("ship date", "Scheduled Date");
    ("delivery date", "Scheduled Date"); ("date", "Scheduled Date");
    ("price", "Price"); ("amount", "Price"); ("value", "Price") ].

(** [d.get(k)] on a dictionary literal. *)
Fixpoint dict_get (d : list (string * string)) (k : string) : option string :=
  match d with
  | [] => None
  | (k', v) :: d' => if String.eqb k k' then Some v else dict_get d' k
  end.

(** ** Column Resolver *)

(** [clean_header]: [re.sub(r"\s+", " ", str(s).strip()).lower()] *)
Definition clean_header (s : string) : string :=
  PyStr.lower (PyStr.sub_ws (PyStr.strip s)).

(** The new label that [standardize_columns] gives to the column labelled
    [c]: the value of the rename dictionary at [c], then the [strip] of the
    second statement. *)
Definition rename_label (c : string) : string :=
  match dict_get COLUMN_ALIASES (clean_header c) with
  | Some canonical => canonical
  | None => PyStr.strip c
  end.

Definition standardize_label (c : string) : string :=
  PyStr.strip (rename_label c).

(** ** Values held by a cell *)

(** A Python [float], as the decimal number [(-1)^neg * mant * 10^exp].
    [float_of_str] builds it with no trailing zero in [mant]. *)
Record pyfloat : Set := mkFloat { f_neg : bool; f_mant : N; f_exp : Z }.

(** [datetime.date] *)
Record date : Set := mkDate { year : nat; month : nat; day : nat }.

(** [pd.Timestamp]: a date and a time of day, down to the nanosecond. *)
Record datetime : Set := mkDatetime {
  dt_date : date;
  hour : nat; minute : nat; second : nat;
  nanosecond : nat
}.

(** The three missing-value markers of pandas. *)
Inductive na_kind : Set := NaN | NA | NaT.

Inductive cell : Set :=
| PyNone
| Missing (k : na_kind)
| Text (s : string)
| Int (z : Z)
| Float (f : pyfloat)
| Date (d : date)
| Timestamp (t : datetime).

(** ** Exceptions *)

(** [SchemaError missing found] is the [KeyError] of [normalize_df] together
    with the two lists it writes out before raising. *)
Inductive exn : Set :=
| SchemaError (missing found : list string)
| ValueError
| AttributeError.

Inductive py (A : Type) : Type :=
| Ok (a : A)
| Raise (e : exn).

Arguments Ok {A} a.
Arguments Raise {A} e.

Definition bind {A B : Type} (m : py A) (k : A -> py B) : py B :=
  match m with
  | Ok a => k a
  | Raise e => Raise e
  end.

Notation "x <- m ;; k" := (bind m (fun x => k))
  (at level 61, m at next level, right associativity).

(** [for x in l: f(x)], collecting the results; the first exception ends
    the loop. *)
Fixpoint mapM {A B : Type} (f : A -> py B) (l : list A) : py (list B) :=
  match l with
  | [] => Ok []
  | a :: l' => b <- f a ;; bs <- mapM f l' ;; Ok (b :: bs)
  end.

(** ** Printing values: Python's [str] *)

Module PyRepr.

Local Open Scope string_scope.

Definition digits_of_nat (n : nat) : string :=
  NilZero.string_of_uint (Nat.to_uint n).

Definition digits_of_N (n : N) : string :=
  NilZero.string_of_uint (N.to_uint n).

Fixpoint zeros (n : nat) : string :=
  match n with
  | O => EmptyString
  | S k => String "0" (zeros k)
  end.

(** ["%0<w>d" % n] *)
Definition pad (w : nat) (n : nat) : string :=
  let d := digits_of_nat n in
  zeros (w - String.length d) ++ d.

(** [str(z)] for an [int]. *)
Definition str_int (z : Z) : string :=
  match z with
  | Zneg p => String "-" (digits_of_N (Npos p))
  | _ => digits_of_N (Z.to_N z)
  end.

Fixpoint take (n : nat) (s : string) : string :=
  match n, s with
  | S k, String c t => String c (take k t)
  | _, _ => EmptyString
  end.

Fixpoint drop (n : nat) (s : string) : string :=
  match n, s with
  | S k, String _ t => drop k t
  | _, _ => s
  end.

(** [repr] of a [float]: with [decpt] the position of the decimal point
    relative to the first digit, the exponent form is used when
    [decpt > 16] or [decpt <= -4], the positional form otherwise. *)
Definition str_float (f : pyfloat) : string :=
  let ds := digits_of_N (f_mant f) in
  let n := String.length ds in
  let decpt := (Z.of_nat n + f_exp f)%Z in
  let sign := if f_neg f then "-" else "" in
  let body :=
    if ((16 <? decpt) || (decpt <? -3))%Z then
      let e10 := (decpt - 1)%Z in
      take 1 ds
      ++ (if (1 <? n)%nat then String "." (drop 1 ds) else "")
      ++ "e" ++ (if (e10 <? 0)%Z then "-" else "+")
      ++ pad 2 (Z.abs_nat e10)
    else if (decpt <=? 0)%Z then
      "0." ++ zeros (Z.abs_nat decpt) ++ ds
    else if (Z.of_nat n <=? decpt)%Z then
      ds ++ zeros (Z.to_nat decpt - n) ++ ".0"
    else
      take (Z.to_nat decpt) ds ++ String "." (drop (Z.to_nat decpt) ds)
  in sign ++ body.

(** [d.isoformat()] *)
Definition str_date (d : date) : string :=
  pad 4 (year d) ++ "-" ++ pad 2 (month d) ++ "-" ++ pad 2 (day d).

(** [str(ts)] for a [Timestamp]: ISO format with a space separator, the
    fraction of a second printed on 6 or 9 digits when it is not zero. *)
Definition str_datetime (t : datetime) : string :=
  str_date (dt_date t) ++ " "
  ++ pad 2 (hour t) ++ ":" ++ pad 2 (minute t) ++ ":" ++ pad 2 (second t)
  ++ (if (nanosecond t =? 0)%nat then ""
      else if (nanosecond t mod 1000 =? 0)%nat
           then String "." (pad 6 (nanosecond t / 1000))
           else String "." (pad 9 (nanosecond t))).

Definition str_na (k : na_kind) : string :=
  match k with
  | NaN => "nan"
  | NA => "<NA>"
  | NaT => "NaT"
  end.

(** [str(x)] *)
Definition str (x : cell) : string :=
  match x with
  | PyNone => "None"
  | Missing k => str_na k
  | Text s => s
  | Int z => str_int z
  | Float f => str_float f
  | Date d => str_date d
  | Timestamp t => str_datetime t
  end.

End PyRepr.

(** ** Reading a number: Python's [float] *)

Module PyFloat.

Local Open Scope string_scope.

Definition digit_val (c : ascii) : N := N.of_nat (PyStr.code c - 48).

Fixpoint N_of_digits (acc : N) (s : string) : N :=
  match s with
  | EmptyString => acc
  | String c t => N_of_digits (10 * acc + digit_val c) t
  end.

(** Splits at the first decimal point: the part before it and, when there
    is one, the part after it. *)
Fixpoint split_point (s : string) : string * option string :=
  match s with
  | EmptyString => (EmptyString, None)
  | String c t =>
      if Ascii.eqb c "." then (EmptyString, Some t)
      else let (a, b) := split_point t in (String c a, b)
  end.

(** Removes the trailing zeros of a mantissa of at most [fuel] digits. *)
Fixpoint drop_zeros (fuel : nat) (m : N) (e : Z) : N * Z :=
  match fuel with
  | O => (m, e)
  | S k =>
      if (m =? 0)%N then (0%N, 0%Z)
      else if (m mod 10 =? 0)%N then drop_zeros k (m / 10)%N (e + 1)%Z
      else (m, e)
  end.

Definition make (neg : bool) (ip fp : string) : pyfloat :=
  let ds := ip ++ fp in
  let (m, e) := drop_zeros (S (String.length ds)) (N_of_digits 0 ds)
                           (- Z.of_nat (String.length fp))%Z in
  mkFloat neg m e.

(** [float(s)] for the strings that [parse_price_to_float] passes to it,
    which hold digits, points and minus signs only: an optional leading
    minus sign, then digits with at most one point and at least one digit.
    Everything else raises [ValueError]. *)
Definition float_of_str (s : string) : py pyfloat :=
  let (neg, body) :=
    match s with
    | String "-" t => (true, t)
    | _ => (false, s)
    end in
  let (ip, ofp) := split_point body in
  let fp := match ofp with Some fp => fp | None => EmptyString end in
  if PyStr.forallb PyStr.isdigit ip && PyStr.forallb PyStr.isdigit fp
     && negb (PyStr.is_empty ip && PyStr.is_empty fp)
  then Ok (make neg ip fp)
  else Raise ValueError.

End PyFloat.

(** ** Frames *)

(** A [pd.DataFrame]: the column labels, in order, and the rows, each with
    one cell per column.  Labels need not be distinct. *)
Record DataFrame : Set := mkDF {
  columns : list string;
  rows : list (list cell)
}.

Module Frame.

(** [pd.isna(x)] on a scalar. *)
Definition isna (x : cell) : bool :=
  match x with
  | PyNone | Missing _ => true
  | _ => false
  end.

Definition notna (x : cell) : bool := negb (isna x).

(** The positions of the columns labelled [k], counting from [i]. *)
Fixpoint positions (i : nat) (k : string) (cols : list string) : list nat :=
  match cols with
  | [] => []
  | c :: cols' =>
      if String.eqb c k then i :: positions (S i) k cols'
      else positions (S i) k cols'
  end.

(** The column positions that [df[keys]] takes: for each key in turn, every
    column carrying that label. *)
Definition indexer (keys cols : list string) : list nat :=
  flat_map (fun k => positions 0 k cols) keys.

Definition take_row (idx : list nat) (row : list cell) : list cell :=
  map (fun i => nth i row (Missing NaN)) idx.

(** [df[keys]] for a list of labels that all occur in [df]. *)
Definition select (keys : list string) (df : DataFrame) : DataFrame :=
  let idx := indexer keys (columns df) in
  mkDF (map (fun i => nth i (columns df) EmptyString) idx)
       (map (take_row idx) (rows df)).

(** The cell of [row] in the first column labelled [c]. *)
Fixpoint get (cols : list string) (row : list cell) (c : string) : cell :=
  match cols, row with
  | k :: cols', x :: row' => if String.eqb k c then x else get cols' row' c
  | _, _ => Missing NaN
  end.

(** [df.dropna(how="all", subset=subset)] *)
Definition dropna_all (subset : list string) (df : DataFrame) : DataFrame :=
  mkDF (columns df)
       (filter (fun r => negb (forallb (fun c => isna (get (columns df) r c)) subset))
               (rows df)).

Fixpoint update_row (cols : list string) (c : string) (f : cell -> py cell)
         (row : list cell) : py (list cell) :=
  match cols, row with
  | k :: cols', x :: row' =>
      x' <- (if String.eqb k c then f x else Ok x) ;;
      r' <- update_row cols' c f row' ;;
      Ok (x' :: r')
  | _, _ => Ok row
  end.

Definition count_label (c : string) (cols : list string) : nat :=
  List.length (positions 0 c cols).

(** [df[c] = g(df[c])] where [g] works on a series cell by cell, as
    [.apply(f)] and the [.str] methods do.  When the label [c] is carried by
    several columns [df[c]] is a frame and not a series; the calls made on
    it in [normalize_df] then fail, which the model reports as
    [AttributeError] (a frame has no [.str]). *)
Definition apply_col (c : string) (f : cell -> py cell) (df : DataFrame)
  : py DataFrame :=
  if (count_label c (columns df) =? 1)%nat then
    rows' <- mapM (update_row (columns df) c f) (rows df) ;;
    Ok (mkDF (columns df) rows')
  else Raise AttributeError.

(** [df[mask]] for a mask computed row by row. *)
Definition filter_rows (keep : list string -> list cell -> bool) (df : DataFrame)
  : DataFrame :=
  mkDF (columns df) (filter (keep (columns df)) (rows df)).

(** [series.eq("")] on one cell. *)
Definition eq_empty (x : cell) : bool :=
  match x with
  | Text s => PyStr.is_empty s
  | _ => false
  end.

(** [series.str.fullmatch(r"\d+")] on one cell holding a string. *)
Definition fullmatch_digits (x : cell) : bool :=
  match x with
  | Text s => negb (PyStr.is_empty s) && PyStr.forallb PyStr.isdigit s
  | _ => false
  end.

(** [series.str.strip().ne("")] on one cell holding a string. *)
Definition strip_ne_empty (x : cell) : bool :=
  match x with
  | Text s => negb (PyStr.is_empty (PyStr.strip s))
  | _ => true
  end.

End Frame.

(** ** The pipeline of [app.py] *)

Definition TEXT_COLS : list string :=
  [ "WO"; "Quote"; "PO Number"; "Status"; "Customer Name"; "Model Description" ].

(** The characters outside the regex class [[^0-9.\-]]. *)
Definition price_char (c : ascii) : bool :=
  PyStr.isdigit c || Ascii.eqb c "." || Ascii.eqb c "-".

(** [pd.isna(x)] inside a [try] block: on the scalars of the model it
    returns without raising. *)
Definition pd_isna (x : cell) : py bool := Ok (Frame.isna x).

(** [parse_price_to_float] *)
Definition parse_price_to_float (x : cell) : py cell :=
  match x with
  | PyNone => Ok (Missing NA)
  | _ =>
      if PyStr.is_empty (PyStr.strip (PyRepr.str x)) then Ok (Missing NA)
      else
        match pd_isna x with
        | Ok true => Ok (Missing NA)
        | _ =>
            let s := PyStr.keep price_char
                       (PyStr.remove_char "," (PyStr.remove_char "$" (PyRepr.str x))) in
            match PyFloat.float_of_str s with
            | Ok v => Ok (Float v)
            | Raise _ => Ok (Missing NA)
            end
        end
  end.

(** The cell-wise effect of the two statements of the text loop:
    [.where(notna, "").astype(str).str.strip()] and then
    [.replace({"nan": "", "NaN": "", "None": "", "<NA>": ""})]. *)
Definition coerce_text (x : cell) : cell :=
  let x1 := if Frame.notna x then x else Text "" in
  let s := PyStr.strip (PyRepr.str x1) in
  if PyStr.mem s [ "nan"; "NaN"; "None"; "<NA>" ] then Text "" else Text s.

(** [standardize_columns] *)
Definition standardize_columns (df : DataFrame) : DataFrame :=
  mkDF (map standardize_label (columns df)) (rows df).

Definition missing_cols (cols : list string) : list string :=
  filter (fun c => negb (PyStr.mem c cols)) REQUIRED_COLS.

Definition extra_cols (cols : list string) : list string :=
  filter (fun c => negb (PyStr.mem c REQUIRED_COLS)) cols.

(** The mask [summary_like] of [normalize_df], on one row. *)
Definition summary_like (cols : list string) (r : list cell) : bool :=
  Frame.fullmatch_digits (Frame.get cols r "WO")
  && Frame.eq_empty (Frame.get cols r "Quote")
  && Frame.eq_empty (Frame.get cols r "PO Number")
  && Frame.eq_empty (Frame.get cols r "Status")
  && Frame.eq_empty (Frame.get cols r "Customer Name")
  && Frame.eq_empty (Frame.get cols r "Model Description")
  && Frame.isna (Frame.get cols r "Scheduled Date")
  && Frame.notna (Frame.get cols r "Price").

(** The mask [blank_text] of [normalize_df], on one row. *)
Definition blank_text (cols : list string) (r : list cell) : bool :=
  forallb (fun c => Frame.eq_empty (Frame.get cols r c)) TEXT_COLS.

Definition blank_like (cols : list string) (r : list cell) : bool :=
  blank_text cols r
  && Frame.isna (Frame.get cols r "Scheduled Date")
  && Frame.isna (Frame.get cols r "Price").

(** The mask of the [Apply Changes] handler of [pages/table_view.py]. *)
Definition editor_mask (cols : list string) (r : list cell) : bool :=
  Frame.strip_ne_empty (Frame.get cols r "WO")
  || Frame.strip_ne_empty (Frame.get cols r "Customer Name")
  || Frame.strip_ne_empty (Frame.get cols r "Model Description").

Section Pipeline.

(** [pd.to_datetime(x, errors="coerce")]: [Ok None] stands for [NaT]. *)
Variable to_datetime : cell -> py (option datetime).

(** [parse_date_to_date] *)
Definition parse_date_to_date (x : cell) : py cell :=
  match x with
  | PyNone => Ok (Missing NaT)
  | _ =>
      if PyStr.mem (PyStr.strip (PyRepr.str x)) [ ""; "None"; "NaT" ]
      then Ok (Missing NaT)
      else
        match pd_isna x with
        | Ok true => Ok (Missing NaT)
        | _ =>
            dt <- to_datetime x ;;
            match dt with
            | None => Ok (Missing NaT)
            | Some t => Ok (Date (dt_date t))
            end
        end
  end.

(** The loop [for c in text_cols: df[c] = ...] *)
Fixpoint coerce_text_cols (cs : list string) (df : DataFrame) : py DataFrame :=
  match cs with
  | [] => Ok df
  | c :: cs' =>
      df' <- Frame.apply_col c (fun x => Ok (coerce_text x)) df ;;
      coerce_text_cols cs' df'
  end.

(** [normalize_df] *)
Definition normalize_df (df : DataFrame) : py DataFrame :=
  let df := standardize_columns df in
  let missing := missing_cols (columns df) in
  match missing with
  | _ :: _ => Raise (SchemaError missing (columns df))
  | [] =>
      let ordered := REQUIRED_COLS ++ extra_cols (columns df) in
      let df := Frame.select ordered df in
      let df := Frame.dropna_all REQUIRED_COLS df in
      df <- coerce_text_cols TEXT_COLS df ;;
      df <- Frame.apply_col "Scheduled Date" parse_date_to_date df ;;
      df <- Frame.apply_col "Price" parse_price_to_float df ;;
      let df := Frame.filter_rows (fun cols r => negb (summary_like cols r)) df in
      let df := Frame.filter_rows (fun cols r => negb (blank_like cols r)) df in
      Ok df
  end.

End Pipeline.

(** ** A sample date parser

    Reads [YYYY-MM-DD] texts, and takes dates and timestamps as they are;
    everything else is [NaT].  It instantiates the parameter
    [to_datetime] in the examples. *)

Module IsoDates.

Local Open Scope string_scope.

Definition num (s : string) : option nat :=
  if negb (PyStr.is_empty s) && PyStr.forallb PyStr.isdigit s
  then Some (N.to_nat (PyFloat.N_of_digits 0 s))
  else None.

Definition midnight (d : date) : datetime := mkDatetime d 0 0 0 0.

Definition parse_iso (s : string) : option datetime :=
  if (String.length s =? 10)%nat
     && Ascii.eqb (match String.get 4 s with Some c => c | None => " "%char end) "-"
     && Ascii.eqb (match String.get 7 s with Some c => c | None => " "%char end) "-"
  then
    match num (String.substring 0 4 s), num (String.substring 5 2 s),
          num (String.substring 8 2 s) with
    | Some y, Some m, Some d =>
        if ((1 <=? m) && (m <=? 12) && (1 <=? d) && (d <=? 31))%nat
        then Some (midnight (mkDate y m d)) else None
    | _, _, _ => None
    end
  else None.

Definition to_datetime (x : cell) : py (option datetime) :=
  match x with
  | Text s => Ok (parse_iso s)
  | Date d => Ok (Some (midnight d))
  | Timestamp t => Ok (Some t)
  | _ => Ok None
  end.

End IsoDates.

(** ** The coercion steps, row by row

    [normalize_df] updates one column after the other; the same steps,
    taken as a list, applied to one row and to a frame. *)

Definition step : Type := (string * (cell -> py cell))%type.

Fixpoint update_chain (ups : list step) (cols : list string) (r : list cell)
  : py (list cell) :=
  match ups with
  | [] => Ok r
  | (c, f) :: ups' =>
      r' <- Frame.update_row cols c f r ;; update_chain ups' cols r'
  end.

Fixpoint apply_chain (ups : list step) (df : DataFrame) : py DataFrame :=
  match ups with
  | [] => Ok df
  | (c, f) :: ups' => df' <- Frame.apply_col c f df ;; apply_chain ups' df'
  end.

Definition text_steps : list step :=
  map (fun c => (c, fun x => Ok (coerce_text x))) TEXT_COLS.

Definition coercion_steps (to_datetime : cell -> py (option datetime)) : list step :=
  text_steps
  ++ [ ("Scheduled Date", parse_date_to_date to_datetime);
       ("Price", parse_price_to_float) ].

(** The frame that [normalize_df] has built when it reaches the coercion
    loop: columns renamed and put in order, rows empty in every required
    column dropped. *)
Definition resolved (df : DataFrame) : DataFrame :=
  let df := standardize_columns df in
  Frame.dropna_all REQUIRED_COLS
    (Frame.select (REQUIRED_COLS ++ extra_cols (columns df)) df).

Definition keep_row (cols : list string) (r : list cell) : bool :=
  negb (summary_like cols r) && negb (blank_like cols r).

(** A normalised row, against the row of the resolved frame it comes from. *)
Definition coerced_from (td : cell -> py (option datetime)) (cols : list string)
           (r0 r : list cell) : Prop :=
  length r = length r0
  /\ (forall c, In c TEXT_COLS -> Frame.get cols r c = coerce_text (Frame.get cols r0 c))
  /\ parse_date_to_date td (Frame.get cols r0 "Scheduled Date")
     = Ok (Frame.get cols r "Scheduled Date")
  /\ parse_price_to_float (Frame.get cols r0 "Price") = Ok (Frame.get cols r "Price")
  /\ (forall c, ~ In c REQUIRED_COLS -> Frame.get cols r c = Frame.get cols r0 c).

(** ** Sample frames *)

Definition order_row (wo quote po status customer model : string)
           (scheduled price : cell) : list cell :=
  [ Text wo; Text quote; Text po; Text status; Text customer; Text model;
    scheduled; price ].

(** A footer row [42 / 9999.0] and the same row without a price. *)
Definition footer_frame : DataFrame :=
  mkDF REQUIRED_COLS
    [ order_row "42" "" "" "" "" "" (Missing NaT) (Float (mkFloat false 9999 0));
      order_row "42" "" "" "" "" "" (Missing NaT) (Missing NA) ].

(** A row that carries a quote number and nothing else. *)
Definition quote_only_frame : DataFrame :=
  mkDF REQUIRED_COLS
    [ order_row "" "Q7" "" "" "" "" (Missing NaT) (Missing NA) ].

(** Upper-case spellings of the missing-value words, in text columns. *)
Definition shouting_frame : DataFrame :=
  mkDF REQUIRED_COLS
    [ order_row "NONE" "NAN" "<Na>" "None" "nan" "M1" (Missing NaT) (Missing NA) ].

(** A file with two of the required columns only. *)
Definition two_column_frame : DataFrame :=
  mkDF [ " wo "; "Quotation"; "Remarks" ]
       [ [ Text "A1"; Text "Q1"; Text "urgent" ] ].

(** ** The price rule in the words of the specification

    "Strip the currency symbol, thousands-separator commas, and any
    character that is not a digit, decimal point, or leading minus sign",
    then parse: a minus sign is kept only while nothing has been kept yet. *)

Fixpoint spec_price_residual (kept : bool) (s : string) : string :=
  match s with
  | EmptyString => EmptyString
  | String c t =>
      if PyStr.isdigit c || Ascii.eqb c "."
      then String c (spec_price_residual true t)
      else if Ascii.eqb c "-" && negb kept
           then String c (spec_price_residual true t)
           else spec_price_residual kept t
  end.

Definition spec_coerce_price (s : string) : cell :=
  match PyFloat.float_of_str (spec_price_residual false s) with
  | Ok v => Float v
  | Raise _ => Missing NA
  end.

(** The rational number that a [pyfloat] stands for. *)
Definition float_value (f : pyfloat) : Q :=
  let m := Z.of_N (f_mant f) in
  let q := match f_exp f with
           | Zneg p => Qmake m (Pos.pow 10 p)
           | e => inject_Z (m * 10 ^ e)
           end in
  if f_neg f then Qopp q else q.


(** Headers in the spellings of a spreadsheet export, out of order, with
    two extra columns. *)
Definition export_frame : DataFrame :=
  mkDF [ "Notes"; "Amount"; "work  order"; " QUOTE"; "PO #"; "Status";
         "Client"; "Model"; "Ship Date"; "Batch " ]
    [ [ Text "n1"; Text "$1,234.50"; Text "A1"; Text "Q1"; Missing NaN;
        Text " open "; Text "ACME"; Text "M1"; Text "2024-03-15"; Int 7 ] ].

(** The labels that [df[keys]] yields for the key [k]: one per column of
    [df] labelled [k]. *)
Definition copies (cols : list string) (k : string) : list string :=
  repeat k (Frame.count_label k cols).

(** [sublist l' l]: [l'] is [l] with some elements left out, the others in
    their order. *)
Inductive sublist {A : Type} : list A -> list A -> Prop :=
| sublist_nil : sublist [] []
| sublist_skip (a : A) (l' l : list A) : sublist l' l -> sublist l' (a :: l)
| sublist_keep (a : A) (l' l : list A) : sublist l' l -> sublist (a :: l') (a :: l).

(** The positions that [normalize_df] takes the columns of [df] from. *)
Definition ordered_indexer (df : DataFrame) : list nat :=
  let cols := map standardize_label (columns df) in
  Frame.indexer (REQUIRED_COLS ++ extra_cols cols) cols.

(** ** Status categories ([app.py], [customer_app.py]) *)

Module Status.

Local Open Scope string_scope.

Record colors : Set := mkColors {
  backgroundColor : string;
  borderColor : string;
  textColor : string
}.

Definition STATUS_COLORS : list (string * colors) :=
  [ ("open",        mkColors "#2563eb" "#1d4ed8" "#ffffff");
    ("in progress", mkColors "#d97706" "#b45309" "#ffffff");
    ("completed",   mkColors "#16a34a" "#15803d" "#ffffff");
    ("on hold",     mkColors "#6b7280" "#4b5563" "#ffffff");
    ("cancelled",   mkColors "#dc2626" "#b91c1c" "#ffffff");
    ("default",     mkColors "#0f766e" "#115e59" "#ffffff") ].

Definition STATUS_KEYWORDS : list (string * list string) :=
  [ ("open",        [ "open"; "new"; "pending" ]);
    ("in progress", [ "in progress"; "inprogress"; "wip"; "started"; "working" ]);
    ("completed",   [ "completed"; "complete"; "done"; "closed"; "shipped"; "delivered" ]);
    ("on hold",     [ "on hold"; "hold"; "paused"; "waiting" ]);
    ("cancelled",   [ "cancelled"; "canceled"; "void" ]) ].

(** The regex class [[a-z0-9]]. *)
Definition is_lower_alnum (c : ascii) : bool :=
  ((97 <=? PyStr.code c) && (PyStr.code c <=? 122))%nat || PyStr.isdigit c.

(** [re.sub(r"[^a-z0-9]+", " ", s)]: every maximal run of characters
    outside the class becomes one space. *)
Fixpoint sub_non_alnum (in_run : bool) (s : string) : string :=
  match s with
  | EmptyString => EmptyString
  | String c t =>
      if is_lower_alnum c then String c (sub_non_alnum false t)
      else if in_run then sub_non_alnum true t
           else String " " (sub_non_alnum true t)
  end.

(** [k in s] for strings: [k] occurs in [s] as a substring. *)
Fixpoint contains (k s : string) : bool :=
  String.prefix k s
  || match s with
     | EmptyString => false
     | String _ t => contains k t
     end.

(** The loop over [STATUS_KEYWORDS.items()]: the first category one of
    whose keywords occurs in [compact]. *)
Fixpoint first_category (items : list (string * list string)) (compact : string)
  : option string :=
  match items with
  | [] => None
  | (canonical, keywords) :: items' =>
      if existsb (fun k => contains k compact) keywords then Some canonical
      else first_category items' compact
  end.

Fixpoint has_key {V : Type} (d : list (string * V)) (k : string) : bool :=
  match d with
  | [] => false
  | (k', _) :: d' => String.eqb k k' || has_key d' k
  end.

(** [normalize_status_key] *)
Definition normalize_status_key (status : string) : string :=
  let raw := PyStr.lower (PyStr.strip status) in
  if PyStr.is_empty raw then "default"
  else
    let compact := PyStr.strip (sub_non_alnum false raw) in
    if has_key STATUS_COLORS compact then compact
    else match first_category STATUS_KEYWORDS compact with
         | Some canonical => canonical
         | None => "default"
         end.

(** [d[k]]; [None] stands for the [KeyError] of a missing key. *)
Fixpoint subscript {V : Type} (d : list (string * V)) (k : string) : option V :=
  match d with
  | [] => None
  | (k', v) :: d' => if String.eqb k k' then Some v else subscript d' k
  end.

(** [status_to_colors] *)
Definition status_to_colors (status : string) : option colors :=
  subscript STATUS_COLORS (normalize_status_key status).

End Status.

(** ** Calendar events ([df_to_calendar_events]) *)

Module Calendar.

Local Open Scope string_scope.

(** The [extendedProps] of an event: the details of an order, or the mark
    [{"sold": True}]. *)
Inductive props : Set :=
| OrderProps (wo customer_name model_description status : string)
| SoldProps.

Record event : Set := mkEvent {
  ev_id : string;
  ev_title : string;
  ev_start : string;
  ev_allDay : bool;
  ev_colors : Status.colors;
  ev_props : props
}.

(** What may go wrong while an event is built: a date cell without an
    [isoformat] method, a status key missing from [STATUS_COLORS]. *)
Inductive failure : Set :=
| NoIsoformat (x : cell)
| UnknownStatus (status : string).

Definition result (A : Type) : Type := (failure + A)%type.

(** [r.get(c, default)] on a row of a frame in which at most one column is
    labelled [c]. *)
Definition row_get (cols : list string) (r : list cell) (c : string)
           (default : cell) : cell :=
  if PyStr.mem c cols then Frame.get cols r c else default.

(** [ts.isoformat()] for a [Timestamp]. *)
Definition isoformat_datetime (t : datetime) : string :=
  PyRepr.str_date (dt_date t) ++ "T"
  ++ PyRepr.pad 2 (hour t) ++ ":" ++ PyRepr.pad 2 (minute t) ++ ":"
  ++ PyRepr.pad 2 (second t)
  ++ (if (nanosecond t =? 0)%nat then ""
      else if (nanosecond t mod 1000 =? 0)%nat
           then String "." (PyRepr.pad 6 (nanosecond t / 1000))
           else String "." (PyRepr.pad 9 (nanosecond t))).

(** [d.isoformat()]: dates and timestamps have the method, the other
    values of a cell do not. *)
Definition isoformat (d : cell) : result string :=
  match d with
  | Date x => inr (PyRepr.str_date x)
  | Timestamp t => inr (isoformat_datetime t)
  | _ => inl (NoIsoformat d)
  end.

(** [sep.join(l)] *)
Fixpoint join (sep : string) (l : list string) : string :=
  match l with
  | [] => ""
  | [w] => w
  | w :: l' => w ++ sep ++ join sep l'
  end.

Definition nonempty (s : string) : bool := negb (PyStr.is_empty s).

(** The title of an order: [" | ".join([p for p in [wo, cust] if p])],
    then the model after a dash when there is one. *)
Definition order_title (wo cust model : string) : string :=
  let title := join " | " (filter nonempty [ wo; cust ]) in
  if nonempty model then title ++ " — " ++ model else title.

Definition order_event (wo cust model status start : string)
           (colors : Status.colors) : event :=
  mkEvent wo (order_title wo cust model) start true colors
          (OrderProps wo cust model status).

Definition SOLD_COLORS : Status.colors :=
  Status.mkColors "#cbd5e1" "#94a3b8" "#475569".

Definition sold_event (wo start : string) : event :=
  mkEvent ("sold_" ++ wo) "● SOLD" start true SOLD_COLORS SoldProps.

Definition text_of (cols : list string) (r : list cell) (c : string) : string :=
  PyStr.strip (PyRepr.str (row_get cols r c (Text ""))).

Definition colors_of (status : string) : result Status.colors :=
  match Status.status_to_colors status with
  | Some c => inr c
  | None => inl (UnknownStatus status)
  end.

(** One turn of the loop of [df_to_calendar_events] in [app.py]: no event
    for a row without a work order or without a date. *)
Definition row_event (cols : list string) (r : list cell) : result (option event) :=
  let wo := text_of cols r "WO" in
  let d := row_get cols r "Scheduled Date" (Missing NaT) in
  if PyStr.is_empty wo || Frame.isna d then inr None
  else
    let cust := text_of cols r "Customer Name" in
    let model := text_of cols r "Model Description" in
    let status := text_of cols r "Status" in
    match isoformat d with
    | inl e => inl e
    | inr start =>
        match colors_of status with
        | inl e => inl e
        | inr colors => inr (Some (order_event wo cust model status start colors))
        end
    end.

(** The loop, with the events appended in row order. *)
Fixpoint collect (f : list cell -> result (option event)) (rs : list (list cell))
  : result (list event) :=
  match rs with
  | [] => inr []
  | r :: rs' =>
      match f r with
      | inl e => inl e
      | inr o =>
          match collect f rs' with
          | inl e => inl e
          | inr evs => inr (match o with Some ev => ev :: evs | None => evs end)
          end
      end
  end.

(** [df_to_calendar_events] of [app.py] *)
Definition df_to_calendar_events (df : DataFrame) : result (list event) :=
  collect (row_event (columns df)) (rows df).

(** [_is_mine] of [customer_app.py] *)
Definition _is_mine (cust_col_value : string) (my_customers : list string) : bool :=
  let val := PyStr.lower (PyStr.strip cust_col_value) in
  existsb (fun c => String.eqb val (PyStr.lower (PyStr.strip c))) my_customers.

(** One turn of the loop of [df_to_calendar_events] in [customer_app.py]:
    the order in full for a customer of the user, a SOLD block otherwise. *)
Definition customer_row_event (my_customers : list string)
           (cols : list string) (r : list cell) : result (option event) :=
  let wo := text_of cols r "WO" in
  let d := row_get cols r "Scheduled Date" (Missing NaT) in
  if PyStr.is_empty wo || Frame.isna d then inr None
  else
    let cust := text_of cols r "Customer Name" in
    let model := text_of cols r "Model Description" in
    let status := text_of cols r "Status" in
    if _is_mine cust my_customers then
      match isoformat d with
      | inl e => inl e
      | inr start =>
          match colors_of status with
          | inl e => inl e
          | inr colors => inr (Some (order_event wo cust model status start colors))
          end
      end
    else
      match isoformat d with
      | inl e => inl e
      | inr start => inr (Some (sold_event wo start))
      end.

(** [df_to_calendar_events] of [customer_app.py] *)
Definition customer_calendar_events (df : DataFrame) (my_customers : list string)
  : result (list event) :=
  collect (customer_row_event my_customers (columns df)) (rows df).

(** What a customer sees of an event of the full calendar: the event
    itself for an order of one of the user's customers, a SOLD block that
    keeps the work order and the date otherwise. *)
Definition masked (my_customers : list string) (e : event) : event :=
  match ev_props e with
  | OrderProps _ cust _ _ =>
      if _is_mine cust my_customers then e
      else sold_event (ev_id e) (ev_start e)
  | SoldProps => e
  end.

End Calendar.

(** ** Persistence ([save_data]) *)

Module Storage.

Local Open Scope string_scope.

(** A row of the table [order_book], as [save_data] writes it. *)
Record record : Set := mkRecord {
  wo : string;
  quote : string;
  po_number : string;
  status : string;
  customer_name : string;
  model_description : string;
  scheduled_date : option string;
  price : option pyfloat;
  uploaded_name : string
}.

(** What may stop the conversion of a row: a date cell without
    [isoformat], a price that [float] refuses. *)
Inductive failure : Set :=
| BadDate (x : cell)
| BadPrice (x : cell).

(** [float(z)] for an [int]. *)
Definition float_of_int (z : Z) : pyfloat :=
  let m := Z.abs_N z in
  let (m', e) := PyFloat.drop_zeros (S (String.length (PyRepr.digits_of_N m))) m 0%Z in
  mkFloat (z <? 0)%Z m' e.

(** [l[i:j]] *)
Definition slice {A : Type} (l : list A) (i j : nat) : list A :=
  firstn (j - i) (skipn i l).

(** [range(0, n, 500)] *)
Definition batch_starts (n : nat) : list nat :=
  map (fun q => 500 * q) (seq 0 ((n + 499) / 500)).

(** The batches that the insertion loop sends, in order. *)
Definition batches {A : Type} (l : list A) : list (list A) :=
  map (fun i => slice l i (i + 500)) (batch_starts (length l)).

(** [.delete().neq("wo", "___never___")]: every stored row goes, except
    those whose [wo] is the text [___never___]. *)
Definition delete_all (db : list record) : list record :=
  filter (fun r => String.eqb (wo r) "___never___") db.

(** [df.empty]: no row, or no column. *)
Definition empty (df : DataFrame) : bool :=
  match rows df, columns df with
  | [], _ | _, [] => true
  | _, _ => false
  end.

Section Save.

(** [float(s)] for a text [s]; [None] when it raises. *)
Variable float_of_text : string -> option pyfloat.

(** [float(price) if price is not None and not pd.isna(price) else None] *)
Definition price_field (x : cell) : failure + option pyfloat :=
  if Frame.isna x then inr None
  else match x with
       | Float f => inr (Some f)
       | Int z => inr (Some (float_of_int z))
       | Text s => match float_of_text s with
                   | Some f => inr (Some f)
                   | None => inl (BadPrice x)
                   end
       | _ => inl (BadPrice x)
       end.

(** [d.isoformat() if not pd.isna(d) else None] *)
Definition date_field (d : cell) : failure + option string :=
  if Frame.isna d then inr None
  else match Calendar.isoformat d with
       | inr s => inr (Some s)
       | inl _ => inl (BadDate d)
       end.

(** The dictionary built for one row. *)
Definition record_of (last_uploaded_name : option string)
           (cols : list string) (r : list cell) : failure + record :=
  let d := Calendar.row_get cols r "Scheduled Date" (Missing NaT) in
  let p := Calendar.row_get cols r "Price" PyNone in
  let text := fun c => PyRepr.str (Calendar.row_get cols r c (Text "")) in
  match date_field d with
  | inl e => inl e
  | inr sd =>
      match price_field p with
      | inl e => inl e
      | inr pr =>
          inr (mkRecord (PyStr.strip (text "WO")) (text "Quote") (text "PO Number")
                        (text "Status") (text "Customer Name")
                        (text "Model Description") sd pr
                        (match last_uploaded_name with Some n => n | None => "" end))
      end
  end.

Fixpoint records_of (f : list cell -> failure + record) (rs : list (list cell))
  : failure + list record :=
  match rs with
  | [] => inr []
  | r :: rs' =>
      match f r with
      | inl e => inl e
      | inr x => match records_of f rs' with
                 | inl e => inl e
                 | inr xs => inr (x :: xs)
                 end
      end
  end.

(** [save_data]: the table after the call, and the exception that ended
    it, if any.  The rows are all converted before the first batch is
    sent. *)
Definition save_data (df : DataFrame) (last_uploaded_name : option string)
           (db : list record) : list record * option failure :=
  let db := delete_all db in
  if empty df then (db, None)
  else match records_of (record_of last_uploaded_name (columns df)) (rows df) with
       | inl e => (db, Some e)
       | inr rs => (fold_left (fun db b => (db ++ b)%list) (batches rs) db, None)
       end.

End Save.

End Storage.

(** ** Shape of a float *)

(** The position of the decimal point of [f] relative to its first digit:
    [f] is [0.d1d2...dn * 10^decpt]. *)
Definition decpt (f : pyfloat) : Z :=
  (Z.of_nat (String.length (PyRepr.digits_of_N (f_mant f))) + f_exp f)%Z.

(** The form in which [float_of_str] builds a float: no trailing zero in
    the mantissa, exponent zero for the number zero. *)
Definition normalised (f : pyfloat) : Prop :=
  (f_mant f = 0%N -> f_exp f = 0%Z)
  /\ (f_mant f <> 0%N -> (f_mant f mod 10)%N <> 0%N).

(** What [float_of_str] does once the sign is read. *)
Definition float_body (neg : bool) (body : string) : py pyfloat :=
  let (ip, ofp) := PyFloat.split_point body in
  let fp := match ofp with Some fp => fp | None => EmptyString end in
  if PyStr.forallb PyStr.isdigit ip && PyStr.forallb PyStr.isdigit fp
     && negb (PyStr.is_empty ip && PyStr.is_empty fp)
  then Ok (PyFloat.make neg ip fp)
  else Raise ValueError.

(** * Properties of the string primitives *)

Section StrLemmas.

Import PyStr.

Lemma append_empty_r (s : string) : (s ++ "")%string = s.
Proof. induction s as [|c t IH]; simpl; [reflexivity | now rewrite IH]. Qed.

Lemma append_assoc_s (a b c : string) :
  ((a ++ b) ++ c)%string = (a ++ (b ++ c))%string.
Proof. induction a as [|x a IH]; simpl; [reflexivity | now rewrite IH]. Qed.

Lemma is_empty_true (s : string) : is_empty s = true -> s = "".
Proof. destruct s; simpl; [reflexivity | discriminate]. Qed.

Lemma is_empty_snoc (s : string) (c : ascii) :
  is_empty (s ++ String c "")%string = false.
Proof. destruct s; reflexivity. Qed.

Lemma lstrip_idem (s : string) : lstrip (lstrip s) = lstrip s.
Proof.
  induction s as [|c t IH]; simpl; [reflexivity|].
  destruct (isspace c) eqn:E; [exact IH | simpl; now rewrite E].
Qed.

Lemma rstrip_idem (s : string) : rstrip (rstrip s) = rstrip s.
Proof.
  induction s as [|c t IH]; simpl; [reflexivity|].
  destruct (isspace c && is_empty (rstrip t)) eqn:E; [reflexivity|].
  simpl. rewrite IH, E. reflexivity.
Qed.

Lemma rstrip_cons_fix (c : ascii) (t : string) :
  rstrip (String c t) = String c t ->
  rstrip t = t /\ isspace c && is_empty t = false.
Proof.
  simpl. destruct (isspace c && is_empty (rstrip t)) eqn:E; [discriminate|].
  intros H. injection H as H. rewrite H in E. split; assumption.
Qed.

Lemma rstrip_lstrip (x : string) : rstrip x = x -> rstrip (lstrip x) = lstrip x.
Proof.
  induction x as [|c t IH]; intros H; [reflexivity|].
  destruct (rstrip_cons_fix _ _ H) as [Ht _].
  simpl lstrip. destruct (isspace c); [apply IH, Ht | exact H].
Qed.

Lemma rstrip_strip (s : string) : rstrip (strip s) = strip s.
Proof. unfold strip. apply rstrip_lstrip, rstrip_idem. Qed.

Lemma strip_idem (s : string) : strip (strip s) = strip s.
Proof.
  unfold strip at 1. rewrite rstrip_strip. unfold strip. apply lstrip_idem.
Qed.

Lemma split_run_lstrip (s : string) : split_run "" (lstrip s) = split_run "" s.
Proof.
  induction s as [|c t IH]; simpl; [reflexivity|].
  destruct (isspace c) eqn:E; [exact IH | simpl; now rewrite E].
Qed.

Lemma split_run_rstrip (s cur : string) :
  split_run cur (rstrip s) = split_run cur s.
Proof.
  revert cur. induction s as [|c t IH]; intros cur; simpl; [reflexivity|].
  destruct (isspace c) eqn:E; simpl.
  - destruct (is_empty (rstrip t)) eqn:Et; simpl.
    + apply is_empty_true in Et. rewrite <- (IH ""), Et. simpl.
      destruct (is_empty cur); reflexivity.
    + rewrite E, IH. reflexivity.
  - rewrite E. apply IH.
Qed.

Lemma split_strip (s : string) : split (strip s) = split s.
Proof. unfold split, strip. now rewrite split_run_lstrip, split_run_rstrip. Qed.

Lemma split_run_nonempty (t cur : string) :
  is_empty cur = false \/ is_empty (rstrip t) = false -> split_run cur t <> [].
Proof.
  revert cur. induction t as [|c t IH]; intros cur H; simpl.
  - destruct H as [H|H]; [rewrite H; discriminate | discriminate].
  - destruct (isspace c) eqn:E.
    + destruct (is_empty cur) eqn:Ec; [|discriminate].
      apply IH. right. destruct H as [H|H]; [discriminate|].
      simpl in H. rewrite E in H. simpl in H.
      destruct (is_empty (rstrip t)); [discriminate | reflexivity].
    + apply IH. left. apply is_empty_snoc.
Qed.

Lemma join_sp_cons (w : string) (l : list string) :
  l <> [] -> join_sp (w :: l) = (w ++ String " " (join_sp l))%string.
Proof. destruct l; [congruence | reflexivity]. Qed.

(** On a right-stripped text, replacing the runs of whitespace by one space
    gives the words joined by single spaces. *)
Lemma sub_ws_run_words (x : string) :
  rstrip x = x ->
  (forall cur, is_empty cur = false ->
     (cur ++ sub_ws_run false x)%string = join_sp (split_run cur x))
  /\ sub_ws_run true x = join_sp (split_run "" x).
Proof.
  induction x as [|c t IH]; intros H.
  - split; [|reflexivity]. intros cur Hc. simpl. rewrite Hc. simpl.
    apply append_empty_r.
  - destruct (rstrip_cons_fix _ _ H) as [Ht Hne].
    destruct (IH Ht) as [IHa IHb]. split.
    + intros cur Hc. simpl. destruct (isspace c) eqn:E.
      * rewrite Hc. simpl in Hne.
        rewrite join_sp_cons.
        -- now rewrite IHb.
        -- apply split_run_nonempty. right. now rewrite Ht.
      * rewrite <- IHa by apply is_empty_snoc.
        rewrite append_assoc_s. reflexivity.
    + simpl. destruct (isspace c) eqn:E.
      * simpl. exact IHb.
      * simpl. rewrite <- IHa by reflexivity. reflexivity.
Qed.

Lemma sub_ws_run_lstrip (y : string) :
  sub_ws_run false (lstrip y) = sub_ws_run true (lstrip y).
Proof.
  induction y as [|c t IH]; simpl; [reflexivity|].
  destruct (isspace c) eqn:E; [exact IH | simpl; now rewrite E].
Qed.

Lemma sub_ws_strip (s : string) : sub_ws (strip s) = join_sp (split s).
Proof.
  unfold sub_ws. unfold strip at 1. rewrite sub_ws_run_lstrip.
  fold (strip s). rewrite (proj2 (sub_ws_run_words _ (rstrip_strip s))).
  fold (split (strip s)). now rewrite split_strip.
Qed.

Lemma lower_append (a b : string) :
  lower (a ++ b)%string = (lower a ++ lower b)%string.
Proof. induction a as [|c a IH]; simpl; [reflexivity | now rewrite IH]. Qed.

Lemma lower_join_sp (l : list string) :
  lower (join_sp l) = join_sp (map lower l).
Proof.
  induction l as [|w l IH]; [reflexivity|].
  destruct l as [|w' l]; [reflexivity|].
  change (join_sp (w :: w' :: l)) with (w ++ String " " (join_sp (w' :: l)))%string.
  rewrite lower_append.
  change (lower (String " " (join_sp (w' :: l))))
    with (String " " (lower (join_sp (w' :: l)))).
  rewrite IH. reflexivity.
Qed.

End StrLemmas.

(** [clean_header] depends on the words of the header, lower-cased, only. *)
Lemma clean_header_words (s : string) :
  clean_header s = PyStr.join_sp (map PyStr.lower (PyStr.split s)).
Proof. unfold clean_header. now rewrite sub_ws_strip, lower_join_sp. Qed.

(** * The Column Resolver *)

Lemma dict_get_In (d : list (string * string)) (k v : string) :
  dict_get d k = Some v -> In v (map snd d).
Proof.
  induction d as [|[k' v'] d IH]; simpl; [discriminate|].
  destruct (String.eqb k k'); intros H.
  - injection H as ->. now left.
  - right. now apply IH.
Qed.

(** The canonical names of the alias table carry no outer whitespace. *)
Lemma aliases_stripped (k v : string) :
  dict_get COLUMN_ALIASES k = Some v -> PyStr.strip v = v.
Proof.
  intros H. apply dict_get_In in H.
  assert (A : forallb (fun v => String.eqb (PyStr.strip v) v)
                      (map snd COLUMN_ALIASES) = true) by reflexivity.
  rewrite forallb_forall in A. apply String.eqb_eq. now apply A.
Qed.

(** C7. A header whose cleaned form (trimmed, whitespace runs collapsed,
    lower-cased) is a key of the alias table is renamed to the canonical
    name of that key; two headers made of the same words up to letter case,
    whatever the whitespace between and around the words, get the same
    canonical name; a header whose cleaned form is not a key keeps its own
    text, trimmed; [standardize_columns] renames every label so and leaves
    the rows alone. *)
Theorem column_resolver_renames :
  (forall c k v,
      clean_header c = k -> dict_get COLUMN_ALIASES k = Some v ->
      standardize_label c = v)
  /\ (forall c1 c2 v,
      map PyStr.lower (PyStr.split c1) = map PyStr.lower (PyStr.split c2) ->
      dict_get COLUMN_ALIASES (clean_header c1) = Some v ->
      standardize_label c1 = v /\ standardize_label c2 = v)
  /\ (forall c,
      dict_get COLUMN_ALIASES (clean_header c) = None ->
      standardize_label c = PyStr.strip c)
  /\ (forall df,
      columns (standardize_columns df) = map standardize_label (columns df)
      /\ rows (standardize_columns df) = rows df).
Proof.
  assert (R : forall c v, dict_get COLUMN_ALIASES (clean_header c) = Some v ->
                          standardize_label c = v).
  { intros c v H. unfold standardize_label, rename_label. rewrite H.
    eapply aliases_stripped, H. }
  repeat split.
  - intros c k v <- H. now apply R.
  - now apply R.
  - apply R. rewrite clean_header_words, <- H, <- clean_header_words. assumption.
  - intros c H. unfold standardize_label, rename_label. rewrite H.
    apply strip_idem.
Qed.

Lemma column_resolver_renames_witness :
  standardize_label "  Work   ORDER " = "WO"
  /\ standardize_label "work order" = "WO"
  /\ standardize_label "  Batch  No " = "Batch  No".
Proof.
  destruct column_resolver_renames as [H1 [H2 [H3 _]]].
  split; [|split].
  - apply (H1 "  Work   ORDER " "work order" "WO"); reflexivity.
  - apply (H2 "  Work   ORDER " "work order" "WO"); reflexivity.
  - apply (H3 "  Batch  No "); reflexivity.
Defined.

(** * Rows and frames under column updates *)

Lemma mem_In (x : string) (l : list string) : PyStr.mem x l = true <-> In x l.
Proof.
  induction l as [|y l IH]; simpl.
  - split; [discriminate | tauto].
  - rewrite orb_true_iff, IH, String.eqb_eq. intuition congruence.
Qed.

Lemma mem_not_In (x : string) (l : list string) :
  PyStr.mem x l = false <-> ~ In x l.
Proof.
  rewrite <- mem_In. destruct (PyStr.mem x l); intuition congruence.
Qed.

Lemma bind_Ok {A B : Type} (m : py A) (k : A -> py B) (b : B) :
  bind m k = Ok b -> exists a, m = Ok a /\ k a = Ok b.
Proof. destruct m as [a|e]; simpl; [eauto | discriminate]. Qed.

Lemma mapM_Forall2 {A B : Type} (f : A -> py B) (l : list A) (l' : list B) :
  mapM f l = Ok l' -> Forall2 (fun a b => f a = Ok b) l l'.
Proof.
  revert l'. induction l as [|a l IH]; simpl; intros l' H.
  - injection H as <-. constructor.
  - apply bind_Ok in H as [b [Hb H]]. apply bind_Ok in H as [bs [Hbs H]].
    injection H as <-. constructor; auto.
Qed.

Lemma Forall2_compose {A B C : Type} (R : A -> B -> Prop) (S : B -> C -> Prop)
      (l1 : list A) (l2 : list B) (l3 : list C) :
  Forall2 R l1 l2 -> Forall2 S l2 l3 ->
  Forall2 (fun a c => exists b, R a b /\ S b c) l1 l3.
Proof.
  intros H. revert l3. induction H; intros l3 H3; inversion H3; subst.
  - constructor.
  - constructor; eauto.
Qed.

Lemma Forall2_In_r {A B : Type} (R : A -> B -> Prop) (l : list A) (l' : list B) (b : B) :
  Forall2 R l l' -> In b l' -> exists a, In a l /\ R a b.
Proof.
  induction 1; simpl; [tauto|].
  intros [<-|Hb]; [eauto | destruct (IHForall2 Hb) as [a [? ?]]; eauto].
Qed.

Section RowUpdates.

Variables (cols : list string) (c : string) (f : cell -> py cell).

Lemma update_row_length (r r' : list cell) :
  Frame.update_row cols c f r = Ok r' -> length r' = length r.
Proof.
  revert r r'. induction cols as [|k cols' IH]; intros [|x r] r' H; simpl in H;
    try (injection H as <-; reflexivity).
  apply bind_Ok in H as [x' [_ H]]. apply bind_Ok in H as [r'' [Hr H]].
  injection H as <-. simpl. f_equal. eauto.
Qed.

Lemma update_row_get_same (r r' : list cell) :
  length r = length cols -> In c cols ->
  Frame.update_row cols c f r = Ok r' ->
  f (Frame.get cols r c) = Ok (Frame.get cols r' c).
Proof.
  revert r r'. induction cols as [|k cols' IH]; intros [|x r] r' Hl Hin H;
    simpl in *; try tauto; try discriminate.
  apply bind_Ok in H as [x' [Hx H]]. apply bind_Ok in H as [r'' [Hr H]].
  injection H as <-. simpl.
  destruct (String.eqb k c) eqn:E; [exact Hx|].
  apply IH; auto.
  destruct Hin as [->|Hin]; [rewrite String.eqb_refl in E; discriminate | exact Hin].
Qed.

Lemma update_row_get_other (c' : string) (r r' : list cell) :
  c' <> c ->
  Frame.update_row cols c f r = Ok r' ->
  Frame.get cols r' c' = Frame.get cols r c'.
Proof.
  intros Hne. revert r r'.
  induction cols as [|k cols' IH]; intros [|x r] r' H; simpl in *;
    try (injection H as <-; reflexivity).
  apply bind_Ok in H as [x' [Hx H]]. apply bind_Ok in H as [r'' [Hr H]].
  injection H as <-. simpl.
  destruct (String.eqb k c') eqn:E'.
  - apply String.eqb_eq in E'. subst k.
    destruct (String.eqb c' c) eqn:E; [apply String.eqb_eq in E; contradiction|].
    now injection Hx.
  - eauto.
Qed.

End RowUpdates.

(** What a list of updates on pairwise distinct labels does to a row: each
    updated column holds the image of the cell it held, every other column
    keeps its cell. *)
Lemma update_chain_get (ups : list step) (cols : list string) (r r' : list cell) :
  NoDup (map fst ups) ->
  (forall c, In c (map fst ups) -> In c cols) ->
  length r = length cols ->
  update_chain ups cols r = Ok r' ->
  length r' = length r
  /\ (forall c f, In (c, f) ups -> f (Frame.get cols r c) = Ok (Frame.get cols r' c))
  /\ (forall c, ~ In c (map fst ups) -> Frame.get cols r' c = Frame.get cols r c).
Proof.
  revert r. induction ups as [|[c f] ups IH]; intros r Hnd Hin Hl H; simpl in *.
  - injection H as <-. repeat split; tauto.
  - apply bind_Ok in H as [r1 [H1 H]].
    inversion Hnd as [|? ? Hc Hnd']; subst.
    pose proof (update_row_length _ _ _ _ _ H1) as Hl1.
    destruct (IH r1 Hnd' (fun d Hd => Hin d (or_intror Hd))
                 (eq_trans Hl1 Hl) H) as [L [Same Other]].
    split; [congruence|]. split.
    + intros d g [E|Hd].
      * injection E as <- <-. rewrite (Other c Hc).
        apply update_row_get_same; auto.
      * rewrite <- (update_row_get_other _ _ _ d _ _ (fun E => Hc
                      (eq_ind d (fun z => In z (map fst ups))
                              (in_map fst _ _ Hd) c E)) H1).
        now apply Same.
    + intros d Hd. rewrite Other by tauto.
      eapply update_row_get_other; [|exact H1]. intros ->. tauto.
Qed.

Lemma apply_col_rows (c : string) (f : cell -> py cell) (df df' : DataFrame) :
  Frame.apply_col c f df = Ok df' ->
  Frame.count_label c (columns df) = 1
  /\ columns df' = columns df
  /\ Forall2 (fun r r' => Frame.update_row (columns df) c f r = Ok r')
             (rows df) (rows df').
Proof.
  unfold Frame.apply_col.
  destruct (Frame.count_label c (columns df) =? 1)%nat eqn:E; [|discriminate].
  intros H. apply bind_Ok in H as [rs [Hrs H]]. injection H as <-.
  apply Nat.eqb_eq in E. simpl. auto using mapM_Forall2.
Qed.

Lemma apply_chain_rows (ups : list step) (df df' : DataFrame) :
  apply_chain ups df = Ok df' ->
  (forall c, In c (map fst ups) -> Frame.count_label c (columns df) = 1)
  /\ columns df' = columns df
  /\ Forall2 (fun r r' => update_chain ups (columns df) r = Ok r')
             (rows df) (rows df').
Proof.
  revert df. induction ups as [|[c f] ups IH]; intros df H; simpl in *.
  - injection H as <-. repeat split; [tauto|].
    induction (rows df); constructor; auto.
  - apply bind_Ok in H as [df1 [H1 H]].
    apply apply_col_rows in H1 as [Hc [Hcols Hrows]].
    apply IH in H as [Hcs [Hcols' Hrows']]. rewrite Hcols in *.
    repeat split; [|assumption|].
    + intros d [<-|Hd]; auto.
    + eapply Forall2_impl; [|exact (Forall2_compose _ _ _ _ _ Hrows Hrows')].
      intros r r' [r1 [-> Hr]]. exact Hr.
Qed.

Lemma apply_chain_app (ups1 ups2 : list step) (df : DataFrame) :
  apply_chain (ups1 ++ ups2) df
  = (df' <- apply_chain ups1 df ;; apply_chain ups2 df').
Proof.
  revert df. induction ups1 as [|[c f] ups1 IH]; intros df; simpl; [reflexivity|].
  destruct (Frame.apply_col c f df); simpl; [apply IH | reflexivity].
Qed.

Lemma coerce_text_cols_chain (cs : list string) (df : DataFrame) :
  coerce_text_cols cs df
  = apply_chain (map (fun c => (c, fun x => Ok (coerce_text x))) cs) df.
Proof.
  revert df. induction cs as [|c cs IH]; intros df; simpl; [reflexivity|].
  destruct (Frame.apply_col c _ df); simpl; [apply IH | reflexivity].
Qed.

(** [normalize_df], cut at the point where the columns are resolved and at
    the point where the cells are coerced. *)
Lemma normalize_df_stages (td : cell -> py (option datetime)) (df : DataFrame) :
  normalize_df td df =
  match missing_cols (columns (standardize_columns df)) with
  | _ :: _ =>
      Raise (SchemaError (missing_cols (columns (standardize_columns df)))
                         (columns (standardize_columns df)))
  | [] =>
      mid <- apply_chain (coercion_steps td) (resolved df) ;;
      Ok (Frame.filter_rows keep_row mid)
  end.
Proof.
  unfold normalize_df. destruct (missing_cols _); [|reflexivity].
  unfold coercion_steps. rewrite apply_chain_app, coerce_text_cols_chain.
  fold text_steps. fold (resolved df).
  destruct (apply_chain text_steps (resolved df)) as [d1|]; [|reflexivity].
  simpl. destruct (Frame.apply_col "Scheduled Date" _ d1) as [d2|]; [|reflexivity].
  simpl. destruct (Frame.apply_col "Price" _ d2) as [d3|]; [|reflexivity].
  simpl. unfold Frame.filter_rows, keep_row. simpl. f_equal. f_equal.
  induction (rows d3) as [|r l IH]; simpl; [reflexivity|].
  destruct (summary_like (columns d3) r); simpl; [exact IH|].
  destruct (blank_like (columns d3) r); simpl; [exact IH | now rewrite IH].
Qed.

(** * The rows of a normalised frame *)

Lemma positions_In (k : string) (cols : list string) (i : nat) :
  Frame.positions i k cols <> [] -> In k cols.
Proof.
  revert i. induction cols as [|c cols IH]; intros i; simpl; [congruence|].
  destruct (String.eqb c k) eqn:E.
  - apply String.eqb_eq in E. auto.
  - intros H. right. eapply IH, H.
Qed.

Lemma count_label_In (k : string) (cols : list string) :
  Frame.count_label k cols = 1 -> In k cols.
Proof.
  unfold Frame.count_label. intros H. apply (positions_In k cols 0).
  intros E. rewrite E in H. discriminate.
Qed.

Lemma select_rect (keys : list string) (df : DataFrame) (r : list cell) :
  In r (rows (Frame.select keys df)) ->
  length r = length (columns (Frame.select keys df)).
Proof.
  unfold Frame.select. simpl. rewrite in_map_iff. intros [r0 [<- _]].
  unfold Frame.take_row. now rewrite !length_map.
Qed.

Lemma resolved_rect (df : DataFrame) (r : list cell) :
  In r (rows (resolved df)) -> length r = length (columns (resolved df)).
Proof.
  unfold resolved, Frame.dropna_all. cbn [rows columns]. rewrite filter_In.
  intros [H _]. exact (select_rect _ _ _ H).
Qed.

Lemma coercion_labels (td : cell -> py (option datetime)) :
  map fst (coercion_steps td) = REQUIRED_COLS.
Proof. reflexivity. Qed.

Lemma required_NoDup : NoDup REQUIRED_COLS.
Proof.
  unfold REQUIRED_COLS.
  repeat (constructor; [simpl; intuition discriminate|]). constructor.
Qed.

Lemma text_cols_required (c : string) : In c TEXT_COLS -> In c REQUIRED_COLS.
Proof. simpl. tauto. Qed.

Lemma coercion_chain_row (td : cell -> py (option datetime)) (cols : list string)
      (r0 r : list cell) :
  (forall c, In c REQUIRED_COLS -> In c cols) ->
  length r0 = length cols ->
  update_chain (coercion_steps td) cols r0 = Ok r ->
  coerced_from td cols r0 r.
Proof.
  intros Hin Hl H.
  assert (ND : NoDup (map fst (coercion_steps td)))
    by (rewrite coercion_labels; exact required_NoDup).
  assert (IN : forall c, In c (map fst (coercion_steps td)) -> In c cols)
    by now rewrite coercion_labels.
  destruct (update_chain_get (coercion_steps td) cols r0 r ND IN Hl H)
    as [L [Same Other]].
  unfold coerced_from. repeat split; auto.
  - intros c Hc.
    assert (E : Ok (coerce_text (Frame.get cols r0 c)) = Ok (Frame.get cols r c)).
    { apply (Same c (fun x => Ok (coerce_text x))). unfold coercion_steps.
      apply in_or_app. left. unfold text_steps.
      apply (in_map (fun c => (c, fun x => Ok (coerce_text x)))), Hc. }
    now injection E.
  - apply (Same "Scheduled Date"). simpl. tauto.
  - apply (Same "Price"). simpl. tauto.
Qed.

(** Every successful run of [normalize_df] keeps the columns of the
    resolved frame; its rows are the coerced rows that are neither summary
    rows nor blank rows, in their order. *)
Lemma normalize_df_Ok (td : cell -> py (option datetime)) (df out : DataFrame) :
  normalize_df td df = Ok out ->
  missing_cols (columns (standardize_columns df)) = []
  /\ (forall c, In c REQUIRED_COLS -> Frame.count_label c (columns out) = 1)
  /\ columns out = columns (resolved df)
  /\ exists mid,
      apply_chain (coercion_steps td) (resolved df) = Ok mid
      /\ rows out = filter (keep_row (columns out)) (rows mid)
      /\ Forall2 (coerced_from td (columns out)) (rows (resolved df)) (rows mid).
Proof.
  rewrite normalize_df_stages.
  destruct (missing_cols _) eqn:M; [|discriminate].
  intros H. apply bind_Ok in H as [mid [Hmid H]]. injection H as <-.
  pose proof (apply_chain_rows _ _ _ Hmid) as [Hc [Hcols Hrows]].
  rewrite coercion_labels in Hc.
  assert (Hout : columns (Frame.filter_rows keep_row mid) = columns (resolved df))
    by exact Hcols.
  rewrite Hout.
  split; [reflexivity|]. split; [exact Hc|]. split; [reflexivity|].
  exists mid. split; [exact Hmid|]. split.
  { unfold Frame.filter_rows. cbn [rows]. now rewrite Hcols. }
  assert (R : forall r0, In r0 (rows (resolved df)) ->
                         length r0 = length (columns (resolved df)))
    by apply resolved_rect.
  revert R. induction Hrows as [|r0 r l l' Hr _ IH]; intros R; constructor.
  - apply coercion_chain_row; auto.
    + intros c Hin. now apply count_label_In, Hc.
    + apply R. now left.
  - apply IH. intros; apply R. now right.
Qed.

Lemma normalize_df_row (td : cell -> py (option datetime)) (df out : DataFrame)
      (r : list cell) :
  normalize_df td df = Ok out -> In r (rows out) ->
  keep_row (columns out) r = true
  /\ exists r0, In r0 (rows (resolved df)) /\ coerced_from td (columns out) r0 r.
Proof.
  intros H Hr.
  destruct (normalize_df_Ok _ _ _ H) as [_ [_ [_ [mid [_ [Hrows Hco]]]]]].
  rewrite Hrows in Hr. apply filter_In in Hr as [Hr Hk]. split; [exact Hk|].
  destruct (Forall2_In_r _ _ _ _ Hco Hr) as [r0 [? ?]]. eauto.
Qed.

(** * Schema validation *)

(** C1. When a required column is absent after the headers are resolved,
    [normalize_df] raises the schema error: its missing list holds exactly
    the required names that no header resolved to, its found list is the
    resolved headers, and the outcome is the same whatever the rows hold and
    whatever the date parser does, since no row is looked at. *)
Theorem schema_error_fail_fast
        (td : cell -> py (option datetime)) (df : DataFrame) :
  missing_cols (columns (standardize_columns df)) <> [] ->
  let found := map standardize_label (columns df) in
  let missing := missing_cols found in
  normalize_df td df = Raise (SchemaError missing found)
  /\ (forall c, In c missing <-> In c REQUIRED_COLS /\ ~ In c found)
  /\ (forall td' rows',
        normalize_df td' (mkDF (columns df) rows') = normalize_df td df).
Proof.
  intros H found missing.
  assert (E : forall td' rows',
             normalize_df td' (mkDF (columns df) rows')
             = Raise (SchemaError missing found)).
  { intros td' rows'. rewrite normalize_df_stages. subst missing found.
    change (columns (standardize_columns (mkDF (columns df) rows')))
      with (columns (standardize_columns df)).
    change (map standardize_label (columns df))
      with (columns (standardize_columns df)).
    destruct (missing_cols (columns (standardize_columns df)));
      [congruence | reflexivity]. }
  assert (E0 : normalize_df td df = Raise (SchemaError missing found)).
  { rewrite <- (E td (rows df)). now destruct df. }
  split; [exact E0|]. split.
  - intros c. unfold missing, missing_cols. rewrite filter_In, negb_true_iff.
    now rewrite mem_not_In.
  - intros td' rows'. now rewrite E, E0.
Qed.

Lemma schema_error_fail_fast_witness :
  normalize_df IsoDates.to_datetime two_column_frame
  = Raise (SchemaError
             [ "PO Number"; "Status"; "Customer Name"; "Model Description";
               "Scheduled Date"; "Price" ]
             [ "WO"; "Quote"; "Remarks" ]).
Proof.
  apply (schema_error_fail_fast IsoDates.to_datetime two_column_frame).
  vm_compute. discriminate.
Defined.

(** * The Row Filter *)

Lemma eq_empty_Text (x : cell) : Frame.eq_empty x = true <-> x = Text "".
Proof.
  destruct x as [| | s | | | |]; simpl; try (split; discriminate).
  destruct s; simpl; split; congruence.
Qed.

(** The mask [summary_like], spelled out. *)
Lemma summary_like_spec (cols : list string) (r : list cell) :
  summary_like cols r = true <->
  (exists s, Frame.get cols r "WO" = Text s /\ s <> ""
             /\ PyStr.forallb PyStr.isdigit s = true)
  /\ Frame.get cols r "Quote" = Text ""
  /\ Frame.get cols r "PO Number" = Text ""
  /\ Frame.get cols r "Status" = Text ""
  /\ Frame.get cols r "Customer Name" = Text ""
  /\ Frame.get cols r "Model Description" = Text ""
  /\ Frame.isna (Frame.get cols r "Scheduled Date") = true
  /\ Frame.isna (Frame.get cols r "Price") = false.
Proof.
  unfold summary_like, Frame.notna.
  rewrite !andb_true_iff, !eq_empty_Text, negb_true_iff.
  assert (W : Frame.fullmatch_digits (Frame.get cols r "WO") = true <->
              exists s, Frame.get cols r "WO" = Text s /\ s <> ""
                        /\ PyStr.forallb PyStr.isdigit s = true).
  { destruct (Frame.get cols r "WO") as [| | s | | | |]; simpl;
      try (split; [discriminate | intros [? [? _]]; discriminate]).
    rewrite andb_true_iff, negb_true_iff. split.
    - intros [E D]. exists s. repeat split; auto. intros ->. discriminate.
    - intros [s' [E [Ne D]]]. injection E as <-. split; auto.
      destruct s; [congruence | reflexivity]. }
  rewrite W. tauto.
Qed.



(** * Text fields *)

Lemma coerce_text_shape (x : cell) :
  exists s, coerce_text x = Text s /\ PyStr.strip s = s
            /\ PyStr.mem s [ "nan"; "NaN"; "None"; "<NA>" ] = false.
Proof.
  unfold coerce_text.
  set (y := PyStr.strip (PyRepr.str (if Frame.notna x then x else Text ""))).
  destruct (PyStr.mem y _) eqn:E.
  - exists "". auto.
  - exists y. repeat split; auto. apply strip_idem.
Qed.

Lemma text_fields_are_text (td : cell -> py (option datetime))
      (df out : DataFrame) (r : list cell) (c : string) :
  normalize_df td df = Ok out -> In r (rows out) -> In c TEXT_COLS ->
  exists s, Frame.get (columns out) r c = Text s /\ PyStr.strip s = s
            /\ PyStr.mem s [ "nan"; "NaN"; "None"; "<NA>" ] = false.
Proof.
  intros H Hr Hc.
  destruct (normalize_df_row _ _ _ _ H Hr) as [_ [r0 [_ [_ [T _]]]]].
  rewrite (T c Hc). apply coerce_text_shape.
Qed.

(** C6, as the code has it. In every row of a normalised frame each of the
    six text fields is a string without outer whitespace, never a null; a
    cell that is null, or whose trimmed text is exactly [nan], [NaN], [None]
    or [<NA>], becomes the empty string; every other cell becomes its
    trimmed text, other letter casings of those words included. *)
Theorem text_fields_trimmed_exact_tokens :
  (forall td df out r c,
      normalize_df td df = Ok out -> In r (rows out) -> In c TEXT_COLS ->
      exists s, Frame.get (columns out) r c = Text s /\ PyStr.strip s = s
                /\ PyStr.mem s [ "nan"; "NaN"; "None"; "<NA>" ] = false)
  /\ (forall x, Frame.isna x = true -> coerce_text x = Text "")
  /\ (forall x,
      PyStr.mem (PyStr.strip (PyRepr.str x)) [ "nan"; "NaN"; "None"; "<NA>" ] = true ->
      coerce_text x = Text "")
  /\ (forall x,
      Frame.isna x = false ->
      PyStr.mem (PyStr.strip (PyRepr.str x)) [ "nan"; "NaN"; "None"; "<NA>" ] = false ->
      coerce_text x = Text (PyStr.strip (PyRepr.str x))).
Proof.
  split; [exact text_fields_are_text|]. repeat split.
  - intros x Hx. unfold coerce_text, Frame.notna. rewrite Hx. reflexivity.
  - intros x Hx. unfold coerce_text, Frame.notna.
    destruct (Frame.isna x); simpl negb; cbv iota; [reflexivity|].
    now rewrite Hx.
  - intros x Hn Hx. unfold coerce_text, Frame.notna. rewrite Hn. simpl negb.
    cbv iota. now rewrite Hx.
Qed.

Lemma text_fields_trimmed_exact_tokens_witness :
  (exists s, Frame.get REQUIRED_COLS
               (order_row "NONE" "NAN" "<Na>" "" "" "M1" (Missing NaT) (Missing NA))
               "Status" = Text s
             /\ PyStr.strip s = s
             /\ PyStr.mem s [ "nan"; "NaN"; "None"; "<NA>" ] = false)
  /\ coerce_text (Missing NaN) = Text ""
  /\ coerce_text (Text " None ") = Text ""
  /\ coerce_text (Text " NONE ") = Text "NONE".
Proof.
  destruct text_fields_trimmed_exact_tokens as [H1 [H2 [H3 H4]]].
  split; [|split; [|split]].
  - apply (H1 IsoDates.to_datetime shouting_frame
              (mkDF REQUIRED_COLS
                 [ order_row "NONE" "NAN" "<Na>" "" "" "M1" (Missing NaT) (Missing NA) ])
              _ "Status"); [reflexivity | now left | simpl; tauto].
  - apply H2. reflexivity.
  - apply H3. reflexivity.
  - apply (H4 (Text " NONE ")); reflexivity.
Defined.

(** The claim C6 as written fails: the words are matched with their exact
    spelling, so [NONE], [NAN] and [<Na>] stay in the normalised frame. *)
Lemma upper_case_tokens_survive :
  normalize_df IsoDates.to_datetime shouting_frame
  = Ok (mkDF REQUIRED_COLS
          [ order_row "NONE" "NAN" "<Na>" "" "" "M1" (Missing NaT) (Missing NA) ])
  /\ PyStr.mem (PyStr.lower (PyStr.strip "NONE")) [ "nan"; "none"; "<na>" ] = true
  /\ ~ (forall x,
         PyStr.mem (PyStr.lower (PyStr.strip (PyRepr.str x)))
                   [ "nan"; "none"; "<na>" ] = true ->
         coerce_text x = Text "").
Proof.
  split; [reflexivity|]. split; [reflexivity|].
  intros H. specialize (H (Text "NONE") eq_refl). discriminate.
Qed.

(** * The two cell parsers never raise on their own *)

Lemma parse_price_total (x : cell) :
  exists v, parse_price_to_float x = Ok v
            /\ (v = Missing NA \/ exists f, v = Float f).
Proof.
  unfold parse_price_to_float.
  destruct x; cbn [pd_isna Frame.isna];
    repeat match goal with
           | |- context [if ?b then _ else _] => destruct b
           | |- context [PyFloat.float_of_str ?s] =>
               destruct (PyFloat.float_of_str s)
           end;
    eexists; (split; [reflexivity|]); solve [now left | right; eauto].
Qed.

Lemma parse_date_shape (td : cell -> py (option datetime)) (x v : cell) :
  parse_date_to_date td x = Ok v ->
  v = Missing NaT \/ exists d, v = Date d.
Proof.
  unfold parse_date_to_date.
  assert (K : forall k : py cell,
             k = Ok (Missing NaT) -> k = Ok v -> v = Missing NaT \/ exists d, v = Date d).
  { intros k -> E. injection E as <-. now left. }
  assert (T : forall y,
             (dt <- td y ;;
              match dt with
              | None => Ok (Missing NaT)
              | Some t => Ok (Date (dt_date t))
              end) = Ok v -> v = Missing NaT \/ exists d, v = Date d).
  { intros y E. apply bind_Ok in E as [[t|] [_ E]]; injection E as <-; eauto. }
  destruct x; try (apply K; reflexivity);
    (destruct (PyStr.mem _ _); [apply K; reflexivity|]);
    cbn [pd_isna Frame.isna]; solve [apply K; reflexivity | apply T].
Qed.

Lemma forallb_false_In {A : Type} (f : A -> bool) (l : list A) :
  forallb f l = false -> exists x, In x l /\ f x = false.
Proof.
  induction l as [|a l IH]; simpl; [discriminate|].
  destruct (f a) eqn:E; simpl.
  - intros H. destruct (IH H) as [x [? ?]]. eauto.
  - eauto.
Qed.

(** C2, as the code has it. A row of a normalised frame is not blank: one
    of its six text fields is a non-empty string, or its date is present,
    or its price is present.  The stricter test on WO, Customer Name and
    Model Description is the mask of the table editor, applied there after
    the normalisation: a row passing it has one of the three non-empty. *)
Theorem output_rows_not_blank :
  (forall td df out r,
      normalize_df td df = Ok out -> In r (rows out) ->
      (exists c s, In c TEXT_COLS /\ Frame.get (columns out) r c = Text s /\ s <> "")
      \/ (exists d, Frame.get (columns out) r "Scheduled Date" = Date d)
      \/ (exists f, Frame.get (columns out) r "Price" = Float f))
  /\ (forall cols r,
      editor_mask cols r = true ->
      ~ (Frame.get cols r "WO" = Text ""
         /\ Frame.get cols r "Customer Name" = Text ""
         /\ Frame.get cols r "Model Description" = Text "")).
Proof.
  split.
  - intros td df out r H Hr.
    destruct (normalize_df_row _ _ _ _ H Hr) as [K [r0 [_ [_ [_ [D [P _]]]]]]].
    unfold keep_row in K. apply andb_true_iff in K as [_ K].
    apply negb_true_iff in K. unfold blank_like in K.
    apply parse_date_shape in D.
    destruct (parse_price_total (Frame.get (columns out) r0 "Price")) as [v [Pv S]].
    rewrite P in Pv. injection Pv as <-.
    destruct D as [D|[d D]]; [|right; left; eauto].
    destruct S as [S|[f S]]; [|right; right; eauto].
    rewrite D, S in K. simpl in K. rewrite !andb_true_r in K.
    left. apply forallb_false_In in K as [c [Hc E]].
    destruct (text_fields_are_text _ _ _ _ _ H Hr Hc) as [s [Es _]].
    exists c, s. repeat split; auto. intros ->. rewrite Es in E. discriminate.
  - intros cols r M [W [C Md]]. unfold editor_mask in M.
    rewrite W, C, Md in M. discriminate.
Qed.

Lemma output_rows_not_blank_witness :
  (exists c s, In c TEXT_COLS
               /\ Frame.get REQUIRED_COLS
                    (order_row "" "Q7" "" "" "" "" (Missing NaT) (Missing NA)) c = Text s
               /\ s <> "")
  \/ (exists d, Frame.get REQUIRED_COLS
                  (order_row "" "Q7" "" "" "" "" (Missing NaT) (Missing NA))
                  "Scheduled Date" = Date d)
  \/ (exists f, Frame.get REQUIRED_COLS
                  (order_row "" "Q7" "" "" "" "" (Missing NaT) (Missing NA))
                  "Price" = Float f).
Proof.
  apply (proj1 output_rows_not_blank IsoDates.to_datetime quote_only_frame
               (mkDF REQUIRED_COLS
                  [ order_row "" "Q7" "" "" "" "" (Missing NaT) (Missing NA) ]));
    [reflexivity | now left].
Defined.

(** The claim C2 as written fails: a row that holds a quote number only
    goes through [normalize_df] with its three key fields empty. *)
Lemma quote_only_row_survives :
  ~ (forall td df out r,
        normalize_df td df = Ok out -> In r (rows out) ->
        ~ (Frame.get (columns out) r "WO" = Text ""
           /\ Frame.get (columns out) r "Customer Name" = Text ""
           /\ Frame.get (columns out) r "Model Description" = Text "")).
Proof.
  intros H.
  apply (H IsoDates.to_datetime quote_only_frame
           (mkDF REQUIRED_COLS
              [ order_row "" "Q7" "" "" "" "" (Missing NaT) (Missing NA) ])
           (order_row "" "Q7" "" "" "" "" (Missing NaT) (Missing NA)));
    [reflexivity | now left | repeat split].
Qed.

(** * Price coercion *)

Section PriceLemmas.

Import PyStr.

Lemma keep_remove_char (p : ascii -> bool) (c : ascii) (s : string) :
  p c = false -> keep p (remove_char c s) = keep p s.
Proof.
  intros Hc. induction s as [|a t IH]; simpl; [reflexivity|].
  destruct (Ascii.eqb a c) eqn:E.
  - apply Ascii.eqb_eq in E. subst a. now rewrite Hc.
  - simpl. now rewrite IH.
Qed.

Lemma lstrip_empty (s : string) :
  lstrip s = "" -> forallb isspace s = true.
Proof.
  induction s as [|c t IH]; simpl; [reflexivity|].
  destruct (isspace c); [exact IH | discriminate].
Qed.

Lemma rstrip_all_space (s : string) :
  forallb isspace (rstrip s) = true -> forallb isspace s = true.
Proof.
  induction s as [|c t IH]; simpl; [reflexivity|].
  destruct (isspace c) eqn:E; simpl.
  - destruct (is_empty (rstrip t)) eqn:Et; simpl.
    + intros _. apply IH. apply is_empty_true in Et. now rewrite Et.
    + rewrite E. exact IH.
  - rewrite E. discriminate.
Qed.

Lemma strip_empty (s : string) :
  is_empty (strip s) = true -> forallb isspace s = true.
Proof.
  intros H. apply is_empty_true in H. now apply rstrip_all_space, lstrip_empty.
Qed.

Lemma price_char_not_space (c : ascii) : isspace c = true -> price_char c = false.
Proof.
  destruct c as [[] [] [] [] [] [] [] []]; vm_compute; congruence.
Qed.

Lemma keep_price_blank (s : string) :
  forallb isspace s = true -> keep price_char s = "".
Proof.
  induction s as [|c t IH]; simpl; [reflexivity|].
  rewrite andb_true_iff. intros [Hc Ht].
  now rewrite (price_char_not_space _ Hc), IH.
Qed.

Lemma forallb_isdigit_minus (a b : string) :
  forallb isdigit (a ++ String "-" b)%string = false.
Proof.
  induction a as [|c a IH]; simpl; [reflexivity|].
  rewrite IH. apply andb_false_r.
Qed.

Lemma split_point_minus (a b : string) :
  let (ip, ofp) := PyFloat.split_point (a ++ String "-" b)%string in
  forallb isdigit ip
  && forallb isdigit (match ofp with Some fp => fp | None => "" end) = false.
Proof.
  induction a as [|c a IH]; simpl.
  - destruct (PyFloat.split_point b). reflexivity.
  - destruct (Ascii.eqb c "."); simpl.
    + apply forallb_isdigit_minus.
    + destruct (PyFloat.split_point (a ++ String "-" b)%string) as [ip ofp].
      simpl. rewrite <- andb_assoc, IH. apply andb_false_r.
Qed.

(** A minus sign anywhere but in front makes [float] raise. *)
Lemma float_of_str_inner_minus (a b : string) :
  a <> "" -> PyFloat.float_of_str (a ++ String "-" b)%string = Raise ValueError.
Proof.
  intros Ha. unfold PyFloat.float_of_str.
  assert (G : forall body,
             (let (ip, ofp) := PyFloat.split_point body in
              forallb isdigit ip
              && forallb isdigit (match ofp with Some fp => fp | None => "" end)
              = false) ->
             forall neg,
             (let (ip, ofp) := PyFloat.split_point body in
              let fp := match ofp with Some fp => fp | None => "" end in
              if forallb isdigit ip && forallb isdigit fp
                 && negb (is_empty ip && is_empty fp)
              then Ok (PyFloat.make neg ip fp)
              else Raise ValueError) = Raise ValueError).
  { intros body. destruct (PyFloat.split_point body) as [ip ofp].
    intros H neg. cbv zeta. rewrite H. reflexivity. }
  destruct a as [|c a]; [congruence|].
  destruct (Ascii.eqb c "-") eqn:E.
  - apply Ascii.eqb_eq in E. subst c. simpl append. cbv iota beta.
    apply G, split_point_minus.
  - transitivity
      (let (ip, ofp) := PyFloat.split_point (String c a ++ String "-" b)%string in
       let fp := match ofp with Some fp => fp | None => "" end in
       if forallb isdigit ip && forallb isdigit fp
          && negb (is_empty ip && is_empty fp)
       then Ok (PyFloat.make false ip fp)
       else Raise ValueError).
    + simpl append.
      destruct c as [[] [] [] [] [] [] [] []]; try reflexivity; discriminate.
    + apply G, (split_point_minus (String c a) b).
Qed.

End PriceLemmas.

(** On a text, [parse_price_to_float] is: keep the digits, the points and
    the minus signs, and read what is left. *)
Lemma parse_price_text (s : string) :
  parse_price_to_float (Text s) =
  match PyFloat.float_of_str (PyStr.keep price_char s) with
  | Ok v => Ok (Float v)
  | Raise _ => Ok (Missing NA)
  end.
Proof.
  unfold parse_price_to_float. cbn [PyRepr.str pd_isna Frame.isna].
  rewrite !keep_remove_char by reflexivity.
  destruct (PyStr.is_empty (PyStr.strip s)) eqn:E; [|reflexivity].
  now rewrite (keep_price_blank _ (strip_empty _ E)).
Qed.

(** C3, as the code has it. The three sample prices read as stated, and in
    general a text is read by deleting every character that is not a digit,
    a decimal point or a minus sign, wherever the minus sign stands, and
    parsing the rest: missing when the rest does not parse, which is the
    case whenever a minus sign is left after the first character; the
    number otherwise. *)
Theorem price_keeps_every_minus_sign :
  parse_price_to_float (Text "$1,234.50") = Ok (Float (mkFloat false 12345 (-1)))
  /\ Qeq (float_value (mkFloat false 12345 (-1))) (Qmake 123450 100)
  /\ parse_price_to_float (Text "") = Ok (Missing NA)
  /\ parse_price_to_float (Text "abc") = Ok (Missing NA)
  /\ (forall s,
      parse_price_to_float (Text s) =
      match PyFloat.float_of_str (PyStr.keep price_char s) with
      | Ok v => Ok (Float v)
      | Raise _ => Ok (Missing NA)
      end)
  /\ (forall s a b,
      PyStr.keep price_char s = (a ++ String "-" b)%string -> a <> "" ->
      parse_price_to_float (Text s) = Ok (Missing NA)).
Proof.
  repeat split.
  - apply parse_price_text.
  - intros s a b E Ha. rewrite parse_price_text, E.
    now rewrite float_of_str_inner_minus.
Qed.

Lemma price_keeps_every_minus_sign_witness :
  parse_price_to_float (Text "$1-2") = Ok (Missing NA).
Proof.
  apply (proj2 (proj2 (proj2 (proj2 (proj2 price_keeps_every_minus_sign))))
               "$1-2" "1" "2"); [reflexivity | discriminate].
Defined.

(** The claim C3 as written fails: with a minus sign kept only in leading
    position, [1-2] would read as 12; the code reads it as missing. *)
Lemma inner_minus_sign_not_stripped :
  parse_price_to_float (Text "1-2") = Ok (Missing NA)
  /\ spec_coerce_price "1-2" = Float (mkFloat false 12 0)
  /\ ~ (forall s, parse_price_to_float (Text s) = Ok (spec_coerce_price s)).
Proof.
  split; [reflexivity|]. split; [reflexivity|].
  intros H. specialize (H "1-2"). discriminate.
Qed.

(** * Date coercion *)




(** * Totality of the two entry points *)



(** * Column order *)

Section Selection.

Import Frame.

Lemma positions_ge (k : string) (cols : list string) (i j : nat) :
  In j (positions i k cols) -> i <= j.
Proof.
  revert i. induction cols as [|c cols IH]; intros i; simpl; [tauto|].
  destruct (String.eqb c k); simpl.
  - intros [<-|H]; [lia | apply IH in H; lia].
  - intros H. apply IH in H. lia.
Qed.

Lemma positions_length (k : string) (cols : list string) (i j : nat) :
  length (positions i k cols) = length (positions j k cols).
Proof.
  revert i j. induction cols as [|c cols IH]; intros i j; simpl; [reflexivity|].
  destruct (String.eqb c k); simpl; auto.
Qed.

Lemma positions_labels (k : string) (cols : list string) (i : nat) :
  map (fun j => nth (j - i) cols "") (positions i k cols)
  = repeat k (length (positions i k cols)).
Proof.
  revert i. induction cols as [|c cols IH]; intros i; simpl; [reflexivity|].
  assert (T : map (fun j => nth (j - i) (c :: cols) "") (positions (S i) k cols)
              = repeat k (length (positions (S i) k cols))).
  { rewrite <- IH. apply map_ext_in. intros j Hj. apply positions_ge in Hj.
    replace (j - i) with (S (j - S i)) by lia. reflexivity. }
  destruct (String.eqb c k) eqn:E; [|exact T].
  apply String.eqb_eq in E. subst c. simpl. rewrite Nat.sub_diag. simpl.
  f_equal. exact T.
Qed.

(** The labels of [df[keys]]. *)
Lemma select_columns (keys : list string) (df : DataFrame) :
  columns (select keys df) = flat_map (copies (columns df)) keys.
Proof.
  unfold select, indexer. cbn [columns].
  induction keys as [|k keys IH]; simpl; [reflexivity|].
  rewrite map_app, IH. f_equal. unfold copies, count_label.
  rewrite <- positions_labels. apply map_ext. intros j.
  now rewrite Nat.sub_0_r.
Qed.

Lemma count_label_app (k : string) (l1 l2 : list string) :
  count_label k (l1 ++ l2) = count_label k l1 + count_label k l2.
Proof.
  unfold count_label.
  assert (G : forall i, length (positions i k (l1 ++ l2))
                        = length (positions i k l1) + length (positions 0 k l2)).
  { induction l1 as [|c l1 IH]; intros i; simpl.
    - apply positions_length.
    - destruct (String.eqb c k); simpl; rewrite IH; reflexivity. }
  apply G.
Qed.

Lemma count_label_cons (k c : string) (l : list string) :
  count_label k (c :: l) = (if String.eqb c k then 1 else 0) + count_label k l.
Proof.
  unfold count_label. simpl.
  destruct (String.eqb c k); simpl; now rewrite (positions_length k l 1 0).
Qed.

Lemma count_label_repeat (k k' : string) (n : nat) :
  count_label k (repeat k' n) = if String.eqb k' k then n else 0.
Proof.
  induction n as [|n IH]; simpl repeat.
  - now destruct (String.eqb k' k).
  - rewrite count_label_cons, IH. now destruct (String.eqb k' k).
Qed.

Lemma count_label_flat_map (k : string) (cols keys : list string) :
  count_label k (flat_map (copies cols) keys)
  = count_label k keys * count_label k cols.
Proof.
  induction keys as [|k' keys IH]; simpl; [reflexivity|].
  rewrite count_label_app, count_label_cons, IH. unfold copies.
  rewrite count_label_repeat.
  destruct (String.eqb k' k) eqn:E; [|reflexivity].
  apply String.eqb_eq in E. subst k'. lia.
Qed.

Lemma count_label_notin (k : string) (l : list string) :
  ~ In k l -> count_label k l = 0.
Proof.
  induction l as [|c l IH]; intros H; [reflexivity|].
  rewrite count_label_cons, IH by (simpl in H; tauto).
  destruct (String.eqb c k) eqn:E; [|reflexivity].
  apply String.eqb_eq in E. simpl in H. tauto.
Qed.

Lemma count_label_In_pos (k : string) (l : list string) :
  In k l -> 0 < count_label k l.
Proof.
  induction l as [|c l IH]; simpl; [tauto|].
  rewrite count_label_cons. intros [->|H].
  - rewrite String.eqb_refl. lia.
  - apply IH in H. lia.
Qed.

Lemma count_label_NoDup (k : string) (l : list string) :
  NoDup l -> In k l -> count_label k l = 1.
Proof.
  induction 1 as [|c l Hc Hl IH]; simpl; [tauto|].
  rewrite count_label_cons. intros [->|Hk].
  - now rewrite String.eqb_refl, count_label_notin.
  - rewrite IH by assumption.
    destruct (String.eqb c k) eqn:E; [|reflexivity].
    apply String.eqb_eq in E. subst c. contradiction.
Qed.

Lemma count_label_filter (p : string -> bool) (k : string) (l : list string) :
  p k = true -> count_label k (filter p l) = count_label k l.
Proof.
  intros Hk. induction l as [|c l IH]; simpl; [reflexivity|].
  rewrite count_label_cons. destruct (p c) eqn:E.
  - now rewrite count_label_cons, IH.
  - rewrite IH. destruct (String.eqb c k) eqn:Ek; [|reflexivity].
    apply String.eqb_eq in Ek. subst c. congruence.
Qed.

Lemma count_label_required (k : string) :
  In k REQUIRED_COLS -> count_label k REQUIRED_COLS = 1.
Proof. apply count_label_NoDup, required_NoDup. Qed.

Lemma copies_once (cols keys : list string) :
  (forall k, In k keys -> count_label k cols = 1) ->
  flat_map (copies cols) keys = keys.
Proof.
  induction keys as [|k keys IH]; intros H; simpl; [reflexivity|].
  unfold copies at 1. rewrite (H k) by now left. simpl. f_equal.
  apply IH. intros; apply H. now right.
Qed.

End Selection.

Lemma extra_cols_spec (cols : list string) (k : string) :
  In k (extra_cols cols) <-> In k cols /\ ~ In k REQUIRED_COLS.
Proof.
  unfold extra_cols. rewrite filter_In, negb_true_iff, mem_not_In. tauto.
Qed.

(** In a frame that [normalize_df] accepts, each required name labels one
    column once the headers are resolved. *)
Lemma accepted_required_once (td : cell -> py (option datetime))
      (df out : DataFrame) (k : string) :
  normalize_df td df = Ok out -> In k REQUIRED_COLS ->
  Frame.count_label k (map standardize_label (columns df)) = 1.
Proof.
  intros H Hk.
  destruct (normalize_df_Ok _ _ _ H) as [_ [Hc [Hcols _]]].
  specialize (Hc k Hk). rewrite Hcols in Hc.
  unfold resolved, Frame.dropna_all in Hc. cbn [columns] in Hc.
  rewrite select_columns, count_label_flat_map, count_label_app in Hc.
  rewrite count_label_required in Hc by assumption.
  rewrite (count_label_notin k (extra_cols _)) in Hc.
  - cbn [columns standardize_columns] in Hc. lia.
  - rewrite extra_cols_spec. tauto.
Qed.

Lemma accepted_columns (td : cell -> py (option datetime)) (df out : DataFrame) :
  normalize_df td df = Ok out ->
  columns out
  = REQUIRED_COLS
    ++ flat_map (copies (map standardize_label (columns df)))
                (extra_cols (map standardize_label (columns df))).
Proof.
  intros H. destruct (normalize_df_Ok _ _ _ H) as [_ [_ [Hcols _]]].
  rewrite Hcols. unfold resolved, Frame.dropna_all. cbn [columns].
  rewrite select_columns. cbn [columns standardize_columns].
  rewrite flat_map_app. f_equal. apply copies_once.
  intros k Hk. exact (accepted_required_once td df out k H Hk).
Qed.

(** The frame that [normalize_df] returns starts with the eight required
    columns, in their declared order; then comes, for each extra header in
    its original place, one column per column that carries that header once
    trimmed.  No extra header is lost, and extra headers that are pairwise
    distinct once trimmed follow once each, in their original order. *)
Theorem normalize_df_column_order
        (td : cell -> py (option datetime)) (df out : DataFrame) :
  normalize_df td df = Ok out ->
  let cols := map standardize_label (columns df) in
  columns out = REQUIRED_COLS ++ flat_map (copies cols) (extra_cols cols)
  /\ (forall k, In k (extra_cols cols) -> In k (columns out))
  /\ (NoDup (extra_cols cols) ->
      columns out = REQUIRED_COLS ++ extra_cols cols).
Proof.
  intros H cols.
  assert (E : columns out
              = REQUIRED_COLS ++ flat_map (copies cols) (extra_cols cols)).
  { exact (accepted_columns td df out H). }
  split; [exact E|]. split.
  - intros k Hk. rewrite E. apply in_or_app. right.
    apply in_flat_map. exists k. split; [exact Hk|].
    unfold copies. apply extra_cols_spec in Hk as [Hk _].
    pose proof (count_label_In_pos k cols Hk) as P.
    destruct (Frame.count_label k cols); [lia | now left].
  - intros ND. rewrite E. f_equal. apply copies_once.
    intros k Hk. unfold extra_cols.
    rewrite <- (count_label_filter (fun c => negb (PyStr.mem c REQUIRED_COLS)))
      by (apply extra_cols_spec in Hk as [_ Hk];
          now rewrite negb_true_iff, mem_not_In).
    now apply count_label_NoDup.
Qed.

Lemma normalize_df_column_order_witness :
  columns (mkDF (REQUIRED_COLS ++ [ "Notes"; "Batch" ])
             [ order_row "A1" "Q1" "" "open" "ACME" "M1"
                 (Date (mkDate 2024 3 15)) (Float (mkFloat false 12345 (-1)))
               ++ [ Text "n1"; Int 7 ] ])
  = REQUIRED_COLS ++ [ "Notes"; "Batch" ].
Proof.
  refine (proj2 (proj2 (normalize_df_column_order IsoDates.to_datetime export_frame
                          _ _)) _);
    [vm_compute; reflexivity
    | vm_compute; repeat constructor; simpl; intuition discriminate].
Defined.

(** * Row order *)

Lemma sublist_refl {A : Type} (l : list A) : sublist l l.
Proof. induction l; [apply sublist_nil | now apply sublist_keep]. Qed.

Lemma sublist_filter {A : Type} (p : A -> bool) (l : list A) :
  sublist (filter p l) l.
Proof.
  induction l as [|a l IH]; simpl; [apply sublist_nil|].
  destruct (p a); [apply sublist_keep | apply sublist_skip]; exact IH.
Qed.

Lemma sublist_trans {A : Type} (l1 l2 l3 : list A) :
  sublist l1 l2 -> sublist l2 l3 -> sublist l1 l3.
Proof.
  intros H12 H23. revert l1 H12.
  induction H23 as [|a l2 l3 H IH|a l2 l3 H IH]; intros l1 H12.
  - exact H12.
  - apply sublist_skip. now apply IH.
  - inversion H12; subst; [apply sublist_skip | apply sublist_keep]; now apply IH.
Qed.

Lemma sublist_length {A : Type} (l' l : list A) :
  sublist l' l -> length l' <= length l.
Proof. induction 1; simpl; lia. Qed.

Lemma sublist_same_length {A : Type} (l' l : list A) :
  sublist l' l -> length l' = length l -> l' = l.
Proof.
  induction 1 as [|a l' l H IH|a l' l H IH]; simpl; intros E.
  - reflexivity.
  - apply sublist_length in H. lia.
  - f_equal. apply IH. lia.
Qed.

Lemma filter_map_sublist {A B : Type} (g : A -> B) (p : B -> bool) (l : list A) :
  exists l', sublist l' l /\ filter p (map g l) = map g l'.
Proof.
  exists (filter (fun a => p (g a)) l). split; [apply sublist_filter|].
  induction l as [|a l IH]; simpl; [reflexivity|].
  destruct (p (g a)); simpl; now rewrite IH.
Qed.

Lemma Forall2_filter_sublist {A B : Type} (R : A -> B -> Prop) (p : B -> bool)
      (l1 : list A) (l2 : list B) :
  Forall2 R l1 l2 ->
  exists l1', sublist l1' l1 /\ Forall2 R l1' (filter p l2).
Proof.
  induction 1 as [|a b l1 l2 Hab H IH]; simpl.
  - exists []. split; [apply sublist_nil | constructor].
  - destruct IH as [l1' [S F]]. destruct (p b).
    + exists (a :: l1'). split; [now apply sublist_keep | now constructor].
    + exists l1'. split; [now apply sublist_skip | assumption].
Qed.

Lemma Forall2_map_l {A B C : Type} (g : A -> B) (R : B -> C -> Prop)
      (l : list A) (l' : list C) :
  Forall2 R (map g l) l' <-> Forall2 (fun a c => R (g a) c) l l'.
Proof.
  revert l'. induction l as [|a l IH]; intros l'; simpl; split; intros H;
    inversion H; subst; constructor; auto; now apply IH.
Qed.

(** [normalize_df] neither reorders rows nor makes any up: the rows it
    returns are the coerced images of some of the rows it was given, in the
    order they were given; when it returns as many rows as it was given, row
    [i] of the result is the coerced image of row [i] of the input. *)
Theorem normalize_df_keeps_row_order
        (td : cell -> py (option datetime)) (df out : DataFrame) :
  normalize_df td df = Ok out ->
  let image := fun r_in r_out =>
    coerced_from td (columns out) (Frame.take_row (ordered_indexer df) r_in) r_out in
  (exists kept, sublist kept (rows df) /\ Forall2 image kept (rows out))
  /\ length (rows out) <= length (rows df)
  /\ (length (rows out) = length (rows df) -> Forall2 image (rows df) (rows out)).
Proof.
  intros H image.
  assert (K : exists kept, sublist kept (rows df) /\ Forall2 image kept (rows out)).
  { destruct (normalize_df_Ok _ _ _ H) as [_ [_ [_ [mid [_ [Hrows Hco]]]]]].
    destruct (filter_map_sublist (Frame.take_row (ordered_indexer df))
                (fun r => negb (forallb
                   (fun c => Frame.isna (Frame.get (columns
                      (Frame.select (REQUIRED_COLS
                         ++ extra_cols (columns (standardize_columns df)))
                         (standardize_columns df))) r c)) REQUIRED_COLS))
                (rows df)) as [k1 [S1 E1]].
    change (filter _ (map _ (rows df))) with (rows (resolved df)) in E1.
    rewrite E1 in Hco.
    destruct (Forall2_filter_sublist _ (keep_row (columns out)) _ _ Hco)
      as [k2 [S2 F2]].
    rewrite <- Hrows in F2.
    assert (exists k3, sublist k3 k1
                       /\ k2 = map (Frame.take_row (ordered_indexer df)) k3)
      as [k3 [S3 E3]].
    { clear - S2. remember (map _ k1) as m eqn:Em. revert k1 Em.
      induction S2 as [|a l' l S IH|a l' l S IH]; intros k1 Em.
      - exists []. destruct k1; [split; [apply sublist_nil | reflexivity] | discriminate].
      - destruct k1 as [|x k1]; [discriminate|]. injection Em as -> ->.
        destruct (IH k1 eq_refl) as [k3 [S3 E3]].
        exists k3. split; [now apply sublist_skip | exact E3].
      - destruct k1 as [|x k1]; [discriminate|]. injection Em as -> ->.
        destruct (IH k1 eq_refl) as [k3 [S3 E3]].
        exists (x :: k3). split; [now apply sublist_keep | simpl; now rewrite E3]. }
    exists k3. split; [eapply sublist_trans; eassumption|].
    subst k2. apply (proj1 (Forall2_map_l _ _ _ _)) in F2. exact F2. }
  split; [exact K|].
  destruct K as [kept [S F]].
  pose proof (Forall2_length F) as L. pose proof (sublist_length _ _ S) as L'.
  split; [lia|].
  intros E. rewrite <- (sublist_same_length _ _ S) by lia. exact F.
Qed.

Lemma normalize_df_keeps_row_order_witness :
  length (rows (mkDF REQUIRED_COLS
                  [ order_row "42" "" "" "" "" "" (Missing NaT) (Missing NA) ]))
  <= length (rows footer_frame).
Proof.
  refine (proj1 (proj2 (normalize_df_keeps_row_order IsoDates.to_datetime
                          footer_frame _ _))).
  vm_compute. reflexivity.
Defined.

(** * Re-running the cell rules *)

(** Text coercion is idempotent: a coerced text cell is left as it is by a
    second coercion. *)
Theorem coerce_text_idempotent (x : cell) :
  coerce_text (coerce_text x) = coerce_text x.
Proof.
  destruct (coerce_text_shape x) as [s [E [S M]]]. rewrite E.
  unfold coerce_text. cbn [Frame.notna Frame.isna negb PyRepr.str].
  now rewrite S, M.
Qed.

(** * The alias table *)

Lemma clean_header_strip (c : string) :
  clean_header (PyStr.strip c) = clean_header c.
Proof. now rewrite !clean_header_words, split_strip. Qed.

(** Every canonical name of the alias table is one of the required columns
    and is renamed to itself. *)
Lemma alias_values_fixed (k v : string) :
  dict_get COLUMN_ALIASES k = Some v ->
  In v REQUIRED_COLS /\ standardize_label v = v.
Proof.
  intros H. apply dict_get_In in H.
  assert (A : forallb (fun v => PyStr.mem v REQUIRED_COLS
                                && String.eqb (standardize_label v) v)
                      (map snd COLUMN_ALIASES) = true) by (vm_compute; reflexivity).
  rewrite forallb_forall in A. specialize (A v H).
  apply andb_true_iff in A as [A1 A2].
  split; [now apply mem_In | now apply String.eqb_eq].
Qed.

Lemma standardize_label_fixed (c : string) :
  standardize_label (standardize_label c) = standardize_label c.
Proof.
  unfold standardize_label at 2 3, rename_label.
  destruct (dict_get COLUMN_ALIASES (clean_header c)) as [v|] eqn:E.
  - rewrite (aliases_stripped _ _ E). now apply (alias_values_fixed _ _ E).
  - rewrite strip_idem. unfold standardize_label, rename_label.
    rewrite clean_header_strip, E. now rewrite !strip_idem.
Qed.

Lemma required_label_fixed (c : string) :
  In c REQUIRED_COLS -> standardize_label c = c.
Proof.
  intros Hc. simpl in Hc.
  repeat (destruct Hc as [<-|Hc]; [vm_compute; reflexivity|]). contradiction.
Qed.

(** Resolving headers is idempotent: a resolved header resolves to itself,
    so [standardize_columns] changes nothing in a frame it has already
    renamed; a header resolves to a required column exactly when its cleaned
    form is a key of the alias table or its trimmed text is that column's
    name; every required name resolves to itself. *)
Theorem standardize_label_idempotent :
  (forall c, standardize_label (standardize_label c) = standardize_label c)
  /\ (forall df,
      standardize_columns (standardize_columns df) = standardize_columns df)
  /\ (forall c, In c REQUIRED_COLS -> standardize_label c = c)
  /\ (forall c,
      In (standardize_label c) REQUIRED_COLS <->
      (exists v, dict_get COLUMN_ALIASES (clean_header c) = Some v)
      \/ In (PyStr.strip c) REQUIRED_COLS).
Proof.
  pose proof standardize_label_fixed as I.
  split; [exact I|]. split; [|split].
  - intros [cols rs]. unfold standardize_columns. cbn [columns rows].
    f_equal. rewrite map_map. apply map_ext. exact I.
  - exact required_label_fixed.
  - intros c. unfold standardize_label, rename_label.
    destruct (dict_get COLUMN_ALIASES (clean_header c)) as [v|] eqn:E.
    + rewrite (aliases_stripped _ _ E). split; [eauto|].
      intros _. now apply (alias_values_fixed _ _ E).
    + rewrite strip_idem. split; [tauto|]. intros [[v Hv]|H]; [discriminate | exact H].
Qed.

Lemma standardize_label_idempotent_witness : standardize_label "Price" = "Price".
Proof.
  apply (proj1 (proj2 (proj2 standardize_label_idempotent))). simpl. tauto.
Defined.

(** * Status categories *)

Section StatusLemmas.

Import PyStr.

Lemma isspace_lower_char (c : ascii) : isspace (lower_char c) = isspace c.
Proof. destruct c as [[] [] [] [] [] [] [] []]; reflexivity. Qed.

Lemma lower_lstrip (s : string) : lower (lstrip s) = lstrip (lower s).
Proof.
  induction s as [|c t IH]; simpl; [reflexivity|].
  rewrite isspace_lower_char. destruct (isspace c); [exact IH | reflexivity].
Qed.

Lemma is_empty_lower (s : string) : is_empty (lower s) = is_empty s.
Proof. destruct s; reflexivity. Qed.

Lemma lower_rstrip (s : string) : lower (rstrip s) = rstrip (lower s).
Proof.
  induction s as [|c t IH]; simpl; [reflexivity|].
  rewrite isspace_lower_char, <- IH, is_empty_lower.
  destruct (isspace c && is_empty (rstrip t)); reflexivity.
Qed.

Lemma lower_strip (s : string) : lower (strip s) = strip (lower s).
Proof. unfold strip. now rewrite lower_lstrip, lower_rstrip. Qed.

Lemma lower_char_idem (c : ascii) : lower_char (lower_char c) = lower_char c.
Proof. destruct c as [[] [] [] [] [] [] [] []]; reflexivity. Qed.

Lemma lower_idem (s : string) : lower (lower s) = lower s.
Proof.
  induction s as [|c t IH]; simpl; [reflexivity|].
  now rewrite lower_char_idem, IH.
Qed.

End StatusLemmas.

Lemma has_key_subscript {V : Type} (d : list (string * V)) (k : string) :
  Status.has_key d k = true -> exists v, Status.subscript d k = Some v.
Proof.
  induction d as [|[k' v] d IH]; simpl; [discriminate|].
  destruct (String.eqb k k'); simpl; eauto.
Qed.

Lemma first_category_In (items : list (string * list string)) (c k : string) :
  Status.first_category items c = Some k -> In k (map fst items).
Proof.
  induction items as [|[k' ks] items IH]; simpl; [discriminate|].
  destruct (existsb _ ks).
  - intros E. injection E as ->. now left.
  - intros E. right. now apply IH.
Qed.

Lemma status_key_known (status : string) :
  Status.has_key Status.STATUS_COLORS (Status.normalize_status_key status) = true.
Proof.
  unfold Status.normalize_status_key.
  destruct (PyStr.is_empty _); [reflexivity|].
  destruct (Status.has_key Status.STATUS_COLORS
              (PyStr.strip (Status.sub_non_alnum false _))) eqn:E; [exact E|].
  destruct (Status.first_category Status.STATUS_KEYWORDS _) as [k|] eqn:F;
    [|reflexivity].
  apply first_category_In in F. simpl in F.
  repeat (destruct F as [<-|F]; [reflexivity|]). contradiction.
Qed.

(** [normalize_status_key] always returns one of the six keys of
    [STATUS_COLORS], so the subscript in [status_to_colors] never fails;
    the key does not depend on the letter case of the status nor on the
    whitespace around it; a status made of whitespace only gets the default
    colours. *)
Theorem status_to_colors_total :
  (forall status,
      In (Status.normalize_status_key status)
         [ "open"; "in progress"; "completed"; "on hold"; "cancelled"; "default" ]
      /\ exists c, Status.status_to_colors status = Some c)
  /\ (forall s1 s2,
      PyStr.lower (PyStr.strip s1) = PyStr.lower (PyStr.strip s2) ->
      Status.normalize_status_key s1 = Status.normalize_status_key s2)
  /\ (forall s,
      Status.normalize_status_key (PyStr.lower s) = Status.normalize_status_key s
      /\ Status.normalize_status_key (PyStr.strip s) = Status.normalize_status_key s)
  /\ (forall s,
      PyStr.forallb PyStr.isspace s = true ->
      Status.status_to_colors s = Some (Status.mkColors "#0f766e" "#115e59" "#ffffff")).
Proof.
  split; [|split; [|split]].
  - intros status. pose proof (status_key_known status) as K. split.
    + revert K. generalize (Status.normalize_status_key status). intros k.
      unfold Status.STATUS_COLORS. cbn [Status.has_key In]. intros K.
      repeat (apply orb_true_iff in K as [K|K];
              [apply String.eqb_eq in K; subst; tauto|]).
      discriminate.
    + now apply has_key_subscript.
  - intros s1 s2 E. unfold Status.normalize_status_key. now rewrite E.
  - intros s. unfold Status.normalize_status_key. split.
    + now rewrite <- lower_strip, lower_idem.
    + now rewrite strip_idem.
  - intros s H. unfold Status.status_to_colors, Status.normalize_status_key.
    assert (E : PyStr.strip s = "").
    { unfold PyStr.strip.
      assert (R : forall t, PyStr.forallb PyStr.isspace t = true -> PyStr.rstrip t = "").
      { induction t as [|c t IH]; simpl; [reflexivity|].
        rewrite andb_true_iff. intros [Hc Ht]. now rewrite Hc, (IH Ht). }
      now rewrite (R s H). }
    rewrite E. reflexivity.
Qed.

Lemma status_to_colors_total_witness :
  Status.normalize_status_key "  SHIPPED " = Status.normalize_status_key "shipped"
  /\ Status.status_to_colors "   "
     = Some (Status.mkColors "#0f766e" "#115e59" "#ffffff").
Proof.
  destruct status_to_colors_total as [_ [H2 [_ H4]]]. split.
  - apply H2. reflexivity.
  - apply H4. reflexivity.
Defined.

(** * Calendar events *)

Lemma prefix_append (a b : string) : String.prefix a (a ++ b)%string = true.
Proof.
  induction a as [|c a IH]; simpl; [now destruct b|].
  destruct (ascii_dec c c); [exact IH | congruence].
Qed.

Lemma prefix_refl (a : string) : String.prefix a a = true.
Proof. rewrite <- (append_empty_r a) at 2. apply prefix_append. Qed.

Lemma order_title_prefix (wo cust model : string) :
  wo <> "" -> String.prefix wo (Calendar.order_title wo cust model) = true.
Proof.
  intros Hwo. unfold Calendar.order_title.
  assert (J : exists t, Calendar.join " | " (filter Calendar.nonempty [wo; cust])
                        = (wo ++ t)%string).
  { destruct wo as [|c w]; [congruence|]. simpl.
    destruct cust as [|c' u]; simpl.
    - exists "". now rewrite append_empty_r.
    - eexists. reflexivity. }
  destruct J as [t ->].
  destruct (Calendar.nonempty model); [rewrite append_assoc_s|]; apply prefix_append.
Qed.

Lemma colors_of_total (status : string) :
  exists c, Calendar.colors_of status = inr c.
Proof.
  unfold Calendar.colors_of, Status.status_to_colors.
  destruct (has_key_subscript _ _ (status_key_known status)) as [c ->]. eauto.
Qed.

Lemma collect_inr (f : list cell -> Calendar.result (option Calendar.event))
      (P : list cell -> Calendar.event -> Prop) (rs : list (list cell)) :
  (forall r, In r rs ->
     exists o, f r = inr o /\ forall e, o = Some e -> P r e) ->
  exists evs, Calendar.collect f rs = inr evs
              /\ length evs <= length rs
              /\ forall e, In e evs -> exists r, In r rs /\ P r e.
Proof.
  induction rs as [|r rs IH]; intros H; simpl.
  - exists []. split; [reflexivity|]. split; [simpl; lia|]. intros e [].
  - destruct (H r (or_introl eq_refl)) as [o [Hf Ho]].
    destruct (IH (fun r' Hr' => H r' (or_intror Hr'))) as [evs [Hc [Hl He]]].
    rewrite Hf, Hc. destruct o as [e|]; eexists; (split; [reflexivity|]); split.
    + simpl. lia.
    + intros e' [<-|He']; [eauto|].
      destruct (He e' He') as [r' [? ?]]. eauto.
    + lia.
    + intros e' He'. destruct (He e' He') as [r' [? ?]]. eauto.
Qed.

(** The calendar of a normalised frame.  [df_to_calendar_events] never
    fails on a frame that [normalize_df] returned and gives at most one
    event per row; the id of each event is the work order of a row of the
    frame, not empty and without outer whitespace, its title starts with
    that id, its start is the ISO form of that row's date, and it is an
    all-day event. *)
Theorem calendar_of_normalized_frame
        (td : cell -> py (option datetime)) (df out : DataFrame) :
  normalize_df td df = Ok out ->
  exists evs,
    Calendar.df_to_calendar_events out = inr evs
    /\ length evs <= length (rows out)
    /\ forall e, In e evs ->
         Calendar.ev_id e <> ""
         /\ PyStr.strip (Calendar.ev_id e) = Calendar.ev_id e
         /\ String.prefix (Calendar.ev_id e) (Calendar.ev_title e) = true
         /\ Calendar.ev_allDay e = true
         /\ exists r d,
              In r (rows out)
              /\ Frame.get (columns out) r "WO" = Text (Calendar.ev_id e)
              /\ Frame.get (columns out) r "Scheduled Date" = Date d
              /\ Calendar.ev_start e = PyRepr.str_date d.
Proof.
  intros H.
  set (P := fun (r : list cell) (e : Calendar.event) =>
    Calendar.ev_id e <> ""
    /\ PyStr.strip (Calendar.ev_id e) = Calendar.ev_id e
    /\ String.prefix (Calendar.ev_id e) (Calendar.ev_title e) = true
    /\ Calendar.ev_allDay e = true
    /\ exists d,
         Frame.get (columns out) r "WO" = Text (Calendar.ev_id e)
         /\ Frame.get (columns out) r "Scheduled Date" = Date d
         /\ Calendar.ev_start e = PyRepr.str_date d).
  destruct (collect_inr (Calendar.row_event (columns out)) P (rows out))
    as [evs [Hc [Hl He]]].
  - intros r Hr.
    destruct (normalize_df_Ok _ _ _ H) as [_ [Hcount _]].
    assert (M : forall c, In c REQUIRED_COLS -> PyStr.mem c (columns out) = true).
    { intros c Hc. apply mem_In, count_label_In, Hcount, Hc. }
    assert (T : forall c, In c TEXT_COLS ->
                exists s, Calendar.text_of (columns out) r c = s
                          /\ Frame.get (columns out) r c = Text s
                          /\ PyStr.strip s = s).
    { intros c Hc. destruct (text_fields_are_text _ _ _ _ _ H Hr Hc) as [s [E [S _]]].
      exists s. unfold Calendar.text_of, Calendar.row_get.
      rewrite (M c (text_cols_required c Hc)), E. simpl. auto. }
    destruct (normalize_df_row _ _ _ _ H Hr) as [_ [r0 [_ [_ [_ [D _]]]]]].
    apply parse_date_shape in D.
    unfold Calendar.row_event. cbv zeta. unfold Calendar.row_get.
    rewrite (M "Scheduled Date") by (simpl; tauto).
    destruct (T "WO") as [wo [-> [Ewo Swo]]]; [simpl; tauto|].
    destruct (T "Customer Name") as [cust [-> _]]; [simpl; tauto|].
    destruct (T "Model Description") as [model [-> _]]; [simpl; tauto|].
    destruct (T "Status") as [status [-> _]]; [simpl; tauto|].
    destruct (PyStr.is_empty wo) eqn:Ew; simpl.
    { exists None. split; [reflexivity | discriminate]. }
    destruct D as [D|[d D]]; rewrite D; simpl.
    { exists None. split; [reflexivity | discriminate]. }
    destruct (colors_of_total status) as [c ->].
    eexists. split; [reflexivity|]. intros e E. injection E as <-.
    unfold P. simpl.
    assert (wo <> "") by (intros ->; discriminate).
    repeat split; auto using order_title_prefix. eauto.
  - exists evs. split; [exact Hc|]. split; [exact Hl|].
    intros e Hin. destruct (He e Hin) as [r [Hr [P1 [P2 [P3 [P4 [d [P5 [P6 P7]]]]]]]]].
    repeat split; auto. exists r, d. auto.
Qed.

Lemma calendar_of_normalized_frame_witness :
  exists evs,
    Calendar.df_to_calendar_events
      (mkDF (REQUIRED_COLS ++ [ "Notes"; "Batch" ])
         [ order_row "A1" "Q1" "" "open" "ACME" "M1"
             (Date (mkDate 2024 3 15)) (Float (mkFloat false 12345 (-1)))
           ++ [ Text "n1"; Int 7 ] ]) = inr evs
    /\ length evs <= 1.
Proof.
  destruct (calendar_of_normalized_frame IsoDates.to_datetime export_frame
              (mkDF (REQUIRED_COLS ++ [ "Notes"; "Batch" ])
                 [ order_row "A1" "Q1" "" "open" "ACME" "M1"
                     (Date (mkDate 2024 3 15)) (Float (mkFloat false 12345 (-1)))
                   ++ [ Text "n1"; Int 7 ] ]))
    as [evs [E [L _]]]; [vm_compute; reflexivity|].
  exists evs. split; [exact E | exact L].
Defined.

Lemma customer_row_event_masks (my : list string) (cols : list string)
      (r : list cell) (o : option Calendar.event) :
  Calendar.row_event cols r = inr o ->
  Calendar.customer_row_event my cols r = inr (option_map (Calendar.masked my) o).
Proof.
  unfold Calendar.row_event, Calendar.customer_row_event. cbv zeta.
  destruct (PyStr.is_empty _ || Frame.isna _).
  - intros E. injection E as <-. reflexivity.
  - destruct (Calendar.isoformat _) as [e|start]; [discriminate|].
    destruct (Calendar.colors_of _) as [e|c]; [discriminate|].
    intros E. injection E as <-. simpl. unfold Calendar.masked. simpl.
    destruct (Calendar._is_mine _ my); reflexivity.
Qed.

Lemma is_mine_normal (v : string) (my : list string) :
  Calendar._is_mine v my
  = Calendar._is_mine (PyStr.lower (PyStr.strip v))
                      (map (fun c => PyStr.lower (PyStr.strip c)) my).
Proof.
  assert (N : forall s, PyStr.lower (PyStr.strip (PyStr.lower (PyStr.strip s)))
                        = PyStr.lower (PyStr.strip s)).
  { intros s. now rewrite <- lower_strip, strip_idem, lower_idem. }
  unfold Calendar._is_mine. rewrite N.
  induction my as [|c my IH]; simpl; [reflexivity|]. now rewrite N, IH.
Qed.

(** The customer calendar is the full calendar with the orders of other
    customers masked: whenever [df_to_calendar_events] of [app.py] builds
    the events of a frame, the one of [customer_app.py] builds as many, in
    the same order, each one being the full event when the order belongs to
    one of the user's customers and otherwise a SOLD block made of the work
    order and the date only.  Whether an order belongs to the user does not
    depend on letter case or outer whitespace, in the frame or in the
    configured names. *)
Theorem customer_calendar_is_masked_calendar :
  (forall df my evs,
      Calendar.df_to_calendar_events df = inr evs ->
      Calendar.customer_calendar_events df my = inr (map (Calendar.masked my) evs))
  /\ (forall my e wo cust model status,
      Calendar.ev_props e = Calendar.OrderProps wo cust model status ->
      Calendar._is_mine cust my = false ->
      Calendar.masked my e
      = Calendar.mkEvent ("sold_" ++ Calendar.ev_id e) "● SOLD" (Calendar.ev_start e)
                         true Calendar.SOLD_COLORS Calendar.SoldProps)
  /\ (forall v my,
      Calendar._is_mine v my
      = Calendar._is_mine (PyStr.lower (PyStr.strip v))
                          (map (fun c => PyStr.lower (PyStr.strip c)) my)).
Proof.
  split; [|split].
  - intros [cols rs] my. unfold Calendar.df_to_calendar_events,
      Calendar.customer_calendar_events. cbn [columns rows].
    induction rs as [|r rs IH]; intros evs; simpl.
    + intros E. injection E as <-. reflexivity.
    + destruct (Calendar.row_event cols r) as [e|o] eqn:R; [discriminate|].
      rewrite (customer_row_event_masks my _ _ _ R).
      destruct (Calendar.collect (Calendar.row_event cols) rs) as [e|evs'];
        [discriminate|].
      rewrite (IH evs' eq_refl). intros E. injection E as <-.
      destruct o; reflexivity.
  - intros my e wo cust model status P M. unfold Calendar.masked.
    rewrite P, M. reflexivity.
  - exact is_mine_normal.
Qed.

Lemma customer_calendar_is_masked_calendar_witness :
  Calendar.customer_calendar_events
    (mkDF REQUIRED_COLS
       [ order_row "A1" "Q1" "" "open" "ACME" "M1" (Date (mkDate 2024 3 15)) (Missing NA);
         order_row "B7" "" "" "wip" " Beta " "" (Date (mkDate 2024 3 18)) (Missing NA) ])
    [ "beta" ]
  = inr [ Calendar.sold_event "A1" "2024-03-15";
          Calendar.order_event "B7" "Beta" "" "wip" "2024-03-18"
            (Status.mkColors "#d97706" "#b45309" "#ffffff") ].
Proof.
  apply (proj1 customer_calendar_is_masked_calendar
               (mkDF REQUIRED_COLS
                  [ order_row "A1" "Q1" "" "open" "ACME" "M1"
                      (Date (mkDate 2024 3 15)) (Missing NA);
                    order_row "B7" "" "" "wip" " Beta " "" (Date (mkDate 2024 3 18))
                      (Missing NA) ])
               [ "beta" ]
               [ Calendar.order_event "A1" "ACME" "M1" "open" "2024-03-15"
                   (Status.mkColors "#2563eb" "#1d4ed8" "#ffffff");
                 Calendar.order_event "B7" "Beta" "" "wip" "2024-03-18"
                   (Status.mkColors "#d97706" "#b45309" "#ffffff") ]).
  vm_compute. reflexivity.
Defined.

(** * Persistence *)

Section Batches.

Variable A : Type.

Lemma firstn_add (a b : nat) (l : list A) :
  firstn (a + b) l = firstn a l ++ firstn b (skipn a l).
Proof.
  revert l. induction a as [|a IH]; intros l; simpl; [reflexivity|].
  destruct l as [|x l]; simpl.
  - now rewrite firstn_nil.
  - now rewrite IH.
Qed.

Lemma concat_slices (l : list A) (k : nat) :
  concat (map (fun i => Storage.slice l i (i + 500))
              (map (fun q => 500 * q) (seq 0 k)))
  = firstn (500 * k) l.
Proof.
  induction k as [|k IH]; [reflexivity|].
  rewrite seq_S, !map_app, concat_app, IH. cbn [map concat Nat.add].
  rewrite app_nil_r. unfold Storage.slice.
  replace (500 * k + 500 - 500 * k) with 500 by lia.
  replace (500 * S k) with (500 * k + 500) by lia.
  now rewrite firstn_add.
Qed.

Lemma batches_count (n : nat) :
  500 * ((n + 499) / 500) >= n /\ 500 * ((n + 499) / 500) < n + 500.
Proof.
  pose proof (Nat.div_mod_eq (n + 499) 500) as E.
  pose proof (Nat.mod_upper_bound (n + 499) 500) as B. lia.
Qed.

Lemma batches_concat (l : list A) : concat (Storage.batches l) = l.
Proof.
  unfold Storage.batches, Storage.batch_starts.
  pose proof (batches_count (length l)) as [C1 C2].
  rewrite concat_slices. apply firstn_all2. lia.
Qed.

(** The insertion loop of [save_data] sends every row once, in order, in
    batches of at most 500 rows, none of them empty, all of them full but
    the last. *)
Theorem batches_cover (l : list A) :
  concat (Storage.batches l) = l
  /\ length (Storage.batches l) = (length l + 499) / 500
  /\ (forall b, In b (Storage.batches l) -> 0 < length b <= 500)
  /\ (forall i, S i < length (Storage.batches l) ->
                length (nth i (Storage.batches l) []) = 500).
Proof.
  unfold Storage.batches, Storage.batch_starts.
  pose proof (batches_count (length l)) as [C1 C2].
  split; [|split; [|split]].
  - rewrite concat_slices. apply firstn_all2. lia.
  - now rewrite !length_map, length_seq.
  - intros b Hb. rewrite map_map in Hb. apply in_map_iff in Hb as [q [<- Hq]].
    apply in_seq in Hq. unfold Storage.slice.
    rewrite length_firstn, length_skipn.
    replace (500 * q + 500 - 500 * q) with 500 by lia. lia.
  - rewrite !length_map, length_seq. intros i Hi. rewrite map_map.
    rewrite (nth_indep _ [] (Storage.slice l (500 * 0) (500 * 0 + 500)))
      by (rewrite length_map, length_seq; lia).
    rewrite (map_nth (fun q => Storage.slice l (500 * q) (500 * q + 500))).
    rewrite seq_nth by lia. unfold Storage.slice.
    rewrite length_firstn, length_skipn. lia.
Qed.

End Batches.

Lemma fold_left_app_concat {A : Type} (bs : list (list A)) (db : list A) :
  fold_left (fun db b => db ++ b) bs db = db ++ concat bs.
Proof.
  revert db. induction bs as [|b bs IH]; intros db; simpl.
  - now rewrite app_nil_r.
  - now rewrite IH, app_assoc.
Qed.

Lemma delete_all_idem (db : list Storage.record) :
  Storage.delete_all (Storage.delete_all db) = Storage.delete_all db.
Proof.
  unfold Storage.delete_all. induction db as [|r db IH]; simpl; [reflexivity|].
  destruct (String.eqb (Storage.wo r) "___never___") eqn:E; simpl;
    [now rewrite E, IH | exact IH].
Qed.

Lemma delete_all_none (rs : list Storage.record) :
  (forall r, In r rs -> Storage.wo r <> "___never___") ->
  Storage.delete_all rs = [].
Proof.
  unfold Storage.delete_all. induction rs as [|r rs IH]; intros H; simpl;
    [reflexivity|].
  destruct (String.eqb (Storage.wo r) "___never___") eqn:E.
  - apply String.eqb_eq in E. destruct (H r (or_introl eq_refl) E).
  - apply IH. intros; apply H. now right.
Qed.

Section SaveProperties.

Variable float_of_text : string -> option pyfloat.

Let save := Storage.save_data float_of_text.
Let convert := fun name df =>
  Storage.records_of
    (Storage.record_of float_of_text name (columns df)) (rows df).

(** [save_data] replaces the stored rows by the rows of the frame, except
    that stored rows whose [wo] is [___never___] survive the deletion.
    With a frame that is empty the table is only emptied.  When a row of
    the frame cannot be converted the call fails after the deletion and
    before any insertion: the table is left emptied.  Saving the same frame
    twice gives the same table as saving it once, provided no row of the
    frame has [___never___] as its work order. *)
Theorem save_data_replaces_snapshot
        (df : DataFrame) (name : option string) (db : list Storage.record) :
  (Storage.empty df = true ->
     save df name db = (Storage.delete_all db, None))
  /\ (forall e, Storage.empty df = false -> convert name df = inl e ->
       save df name db = (Storage.delete_all db, Some e))
  /\ (forall rs, Storage.empty df = false -> convert name df = inr rs ->
       save df name db = (Storage.delete_all db ++ rs, None)
       /\ length rs = length (rows df)
       /\ ((forall r, In r db -> Storage.wo r <> "___never___") ->
           save df name db = (rs, None))
       /\ ((forall r, In r rs -> Storage.wo r <> "___never___") ->
           save df name (fst (save df name db)) = save df name db)).
Proof.
  subst save convert. unfold Storage.save_data. split; [|split].
  - intros ->. reflexivity.
  - intros e -> ->. reflexivity.
  - intros rs E C. rewrite E, C.
    assert (L : forall (f : list cell -> Storage.failure + Storage.record) l rs',
               Storage.records_of f l = inr rs' ->
               length rs' = length l).
    { intros f l. induction l as [|r l IH]; simpl; intros rs' H.
      - now injection H as <-.
      - destruct (f r); [discriminate|].
        destruct (Storage.records_of f l); [discriminate|].
        injection H as <-. simpl. f_equal. now apply IH. }
    rewrite fold_left_app_concat, (batches_concat _ rs).
    split; [reflexivity|]. split; [exact (L _ _ _ C)|]. split.
    + intros H. now rewrite (delete_all_none db H).
    + intros H. cbn [fst]. rewrite fold_left_app_concat, (batches_concat _ rs).
      f_equal. f_equal. unfold Storage.delete_all at 1. rewrite filter_app.
      fold (Storage.delete_all (Storage.delete_all db)). fold (Storage.delete_all rs).
      now rewrite delete_all_idem, (delete_all_none rs H), app_nil_r.
Qed.

(** A frame that [normalize_df] returned is saved without failure, one
    record per row in row order: the text fields of the record are the text
    fields of the row, its date is the ISO form of the row's date or null
    when the date is missing, its price the row's price or null when the
    price is missing. *)
Theorem save_data_of_normalized_frame
        (td : cell -> py (option datetime)) (df out : DataFrame)
        (name : option string) :
  normalize_df td df = Ok out ->
  exists rs,
    convert name out = inr rs
    /\ Forall2
         (fun r rec =>
            Frame.get (columns out) r "WO" = Text (Storage.wo rec)
            /\ Frame.get (columns out) r "Quote" = Text (Storage.quote rec)
            /\ Frame.get (columns out) r "PO Number" = Text (Storage.po_number rec)
            /\ Frame.get (columns out) r "Status" = Text (Storage.status rec)
            /\ Frame.get (columns out) r "Customer Name"
               = Text (Storage.customer_name rec)
            /\ Frame.get (columns out) r "Model Description"
               = Text (Storage.model_description rec)
            /\ match Storage.scheduled_date rec with
               | Some s => exists d, Frame.get (columns out) r "Scheduled Date" = Date d
                                     /\ s = PyRepr.str_date d
               | None => Frame.get (columns out) r "Scheduled Date" = Missing NaT
               end
            /\ match Storage.price rec with
               | Some f => Frame.get (columns out) r "Price" = Float f
               | None => Frame.get (columns out) r "Price" = Missing NA
               end)
         (rows out) rs.
Proof.
  intros H. subst convert. cbv beta.
  assert (R : forall r, In r (rows out) ->
            exists rec,
              Storage.record_of float_of_text name (columns out) r = inr rec
              /\ Frame.get (columns out) r "WO" = Text (Storage.wo rec)
              /\ Frame.get (columns out) r "Quote" = Text (Storage.quote rec)
              /\ Frame.get (columns out) r "PO Number" = Text (Storage.po_number rec)
              /\ Frame.get (columns out) r "Status" = Text (Storage.status rec)
              /\ Frame.get (columns out) r "Customer Name"
                 = Text (Storage.customer_name rec)
              /\ Frame.get (columns out) r "Model Description"
                 = Text (Storage.model_description rec)
              /\ match Storage.scheduled_date rec with
                 | Some s => exists d,
                     Frame.get (columns out) r "Scheduled Date" = Date d
                     /\ s = PyRepr.str_date d
                 | None => Frame.get (columns out) r "Scheduled Date" = Missing NaT
                 end
              /\ match Storage.price rec with
                 | Some f => Frame.get (columns out) r "Price" = Float f
                 | None => Frame.get (columns out) r "Price" = Missing NA
                 end).
  { intros r Hr.
    destruct (normalize_df_Ok _ _ _ H) as [_ [Hcount _]].
    assert (M : forall c, In c REQUIRED_COLS -> PyStr.mem c (columns out) = true).
    { intros c Hc. apply mem_In, count_label_In, Hcount, Hc. }
    assert (T : forall c, In c TEXT_COLS ->
                exists s, Frame.get (columns out) r c = Text s /\ PyStr.strip s = s).
    { intros c Hc. destruct (text_fields_are_text _ _ _ _ _ H Hr Hc) as [s [E [S _]]].
      eauto. }
    destruct (normalize_df_row _ _ _ _ H Hr) as [_ [r0 [_ [_ [_ [D [P _]]]]]]].
    apply parse_date_shape in D.
    destruct (parse_price_total (Frame.get (columns out) r0 "Price")) as [v [Pv S]].
    rewrite P in Pv. injection Pv as <-.
    unfold Storage.record_of. cbv zeta. unfold Calendar.row_get.
    rewrite !M by (simpl; tauto).
    destruct (T "WO") as [wo [Ewo Swo]]; [simpl; tauto|].
    destruct (T "Quote") as [q [Eq _]]; [simpl; tauto|].
    destruct (T "PO Number") as [po [Epo _]]; [simpl; tauto|].
    destruct (T "Status") as [st [Est _]]; [simpl; tauto|].
    destruct (T "Customer Name") as [cu [Ecu _]]; [simpl; tauto|].
    destruct (T "Model Description") as [mo [Emo _]]; [simpl; tauto|].
    rewrite Ewo, Eq, Epo, Est, Ecu, Emo. cbn [PyRepr.str]. rewrite Swo.
    destruct D as [D|[d D]]; destruct S as [S|[f S]]; rewrite D, S;
      (eexists; split; [reflexivity|]); cbn; repeat split; eauto. }
  induction (rows out) as [|r l IH]; simpl.
  - exists []. split; [reflexivity | constructor].
  - destruct (R r (or_introl eq_refl)) as [rec [E Prec]].
    destruct IH as [rs [Ers F]]; [intros; apply R; now right|].
    rewrite E, Ers. exists (rec :: rs). split; [reflexivity|].
    constructor; assumption.
Qed.

End SaveProperties.

Lemma batches_cover_witness :
  length (nth 0 (Storage.batches (repeat tt 1201)) []) = 500
  /\ 0 < length (nth 2 (Storage.batches (repeat tt 1201)) []) <= 500.
Proof.
  destruct (batches_cover unit (repeat tt 1201)) as [_ [_ [H3 H4]]]. split.
  - apply H4. vm_compute. lia.
  - apply H3. vm_compute. tauto.
Defined.

Lemma save_data_replaces_snapshot_witness :
  Storage.save_data (fun _ => None) quote_only_frame (Some "book.xlsx")
    [ Storage.mkRecord "A1" "" "" "" "" "" None None "old.xlsx" ]
  = ([ Storage.mkRecord "" "Q7" "" "" "" "" None None "book.xlsx" ], None).
Proof.
  apply (proj2 (proj2 (save_data_replaces_snapshot (fun _ => None) quote_only_frame
                         (Some "book.xlsx")
                         [ Storage.mkRecord "A1" "" "" "" "" "" None None "old.xlsx" ]))
               [ Storage.mkRecord "" "Q7" "" "" "" "" None None "book.xlsx" ]);
    [reflexivity | reflexivity |].
  intros r [<-|[]]. discriminate.
Defined.

Lemma save_data_of_normalized_frame_witness :
  exists rs,
    Storage.records_of
      (Storage.record_of (fun _ => None) (Some "book.xlsx") REQUIRED_COLS)
      [ order_row "42" "" "" "" "" "" (Missing NaT) (Missing NA) ] = inr rs
    /\ length rs = 1.
Proof.
  destruct (save_data_of_normalized_frame (fun _ => None) IsoDates.to_datetime
              footer_frame
              (mkDF REQUIRED_COLS
                 [ order_row "42" "" "" "" "" "" (Missing NaT) (Missing NA) ])
              (Some "book.xlsx")) as [rs [E F]]; [vm_compute; reflexivity|].
  exists rs. split; [exact E|]. apply Forall2_length in F. now rewrite <- F.
Defined.

(** * Digits *)

Section Digits.

Import PyStr PyFloat PyRepr.

Lemma digits_of_uint_isdigit (d : Decimal.uint) :
  forallb isdigit (NilEmpty.string_of_uint d) = true.
Proof. induction d; simpl; auto. Qed.

Lemma N_of_digits_of_lu (d a : Decimal.uint) :
  N_of_digits (DecimalPos.Unsigned.of_lu a) (NilEmpty.string_of_uint d)
  = DecimalPos.Unsigned.of_lu (Decimal.revapp d a).
Proof.
  revert a. induction d; intros a;
    cbn [NilEmpty.string_of_uint Decimal.revapp N_of_digits]; [reflexivity|..];
    rewrite <- IHd; f_equal; cbn [DecimalPos.Unsigned.of_lu];
    first [ rewrite N.add_comm; f_equal; reflexivity
          | change (digit_val "0"%char) with 0%N; apply N.add_0_r ].
Qed.

Lemma digits_of_N_uint (m : N) :
  digits_of_N m = NilEmpty.string_of_uint (N.to_uint m).
Proof.
  unfold digits_of_N, NilZero.string_of_uint.
  destruct (N.to_uint m) eqn:E; try reflexivity.
  destruct m as [|p]; [discriminate|].
  exfalso. exact (DecimalPos.Unsigned.to_uint_nonnil p E).
Qed.

Lemma digits_isdigit (m : N) : forallb isdigit (digits_of_N m) = true.
Proof. rewrite digits_of_N_uint. apply digits_of_uint_isdigit. Qed.

Lemma digits_nonempty (m : N) : is_empty (digits_of_N m) = false.
Proof.
  rewrite digits_of_N_uint. destruct m as [|p]; [reflexivity|].
  pose proof (DecimalPos.Unsigned.to_uint_nonnil p) as H.
  simpl. destruct (Pos.to_uint p); try reflexivity. congruence.
Qed.

Lemma N_of_digits_digits (m : N) : N_of_digits 0 (digits_of_N m) = m.
Proof.
  rewrite digits_of_N_uint.
  change 0%N with (DecimalPos.Unsigned.of_lu Decimal.Nil).
  rewrite N_of_digits_of_lu. fold (Decimal.rev (N.to_uint m)).
  rewrite <- DecimalPos.Unsigned.of_uint_alt.
  exact (DecimalN.Unsigned.of_to m).
Qed.

Lemma N_of_digits_app (a b : string) (acc : N) :
  N_of_digits acc (a ++ b)%string = N_of_digits (N_of_digits acc a) b.
Proof. revert acc. induction a as [|c a IH]; intros acc; simpl; auto. Qed.

Lemma N_of_digits_zeros (k : nat) (acc : N) :
  N_of_digits acc (zeros k) = (acc * 10 ^ N.of_nat k)%N.
Proof.
  revert acc. induction k as [|k IH]; intros acc.
  - simpl. lia.
  - cbn [zeros N_of_digits]. rewrite IH.
    change (digit_val "0"%char) with 0%N.
    rewrite Nnat.Nat2N.inj_succ, N.pow_succ_r'. ring.
Qed.




End Digits.

(** * Printing a price and reading it back *)

Section FloatRoundTrip.

Import PyStr PyFloat PyRepr.

Lemma float_of_str_cons (c : ascii) (t : string) :
  float_of_str (String c t)
  = if Ascii.eqb c "-" then float_body true t else float_body false (String c t).
Proof.
  unfold float_of_str, float_body.
  destruct c as [[] [] [] [] [] [] [] []]; reflexivity.
Qed.

Lemma forallb_app (p : ascii -> bool) (a b : string) :
  forallb p (a ++ b)%string = forallb p a && forallb p b.
Proof.
  induction a as [|c a IH]; simpl; [reflexivity|].
  now rewrite IH, andb_assoc.
Qed.

Lemma keep_app (p : ascii -> bool) (a b : string) :
  keep p (a ++ b)%string = (keep p a ++ keep p b)%string.
Proof.
  induction a as [|c a IH]; simpl; [reflexivity|].
  destruct (p c); simpl; now rewrite IH.
Qed.

Lemma keep_all (p : ascii -> bool) (s : string) :
  forallb p s = true -> keep p s = s.
Proof.
  induction s as [|c s IH]; simpl; [reflexivity|].
  rewrite andb_true_iff. intros [-> H]. now rewrite IH.
Qed.

Lemma remove_char_absent (p : ascii -> bool) (c : ascii) (s : string) :
  p c = false -> forallb p s = true -> remove_char c s = s.
Proof.
  intros Hc. induction s as [|a s IH]; simpl; [reflexivity|].
  rewrite andb_true_iff. intros [Ha Hs].
  destruct (Ascii.eqb a c) eqn:E.
  - apply Ascii.eqb_eq in E. congruence.
  - now rewrite IH.
Qed.

Lemma isdigit_price_char (s : string) :
  forallb isdigit s = true -> forallb price_char s = true.
Proof.
  induction s as [|c s IH]; simpl; [reflexivity|].
  rewrite !andb_true_iff. intros [Hc Hs]. split; [|auto].
  unfold price_char. now rewrite Hc.
Qed.

Lemma zeros_isdigit (k : nat) : forallb isdigit (zeros k) = true.
Proof. induction k; simpl; auto. Qed.

Lemma zeros_length (k : nat) : String.length (zeros k) = k.
Proof. induction k; simpl; auto. Qed.

Lemma append_length (a b : string) :
  String.length (a ++ b)%string = String.length a + String.length b.
Proof. induction a; simpl; auto. Qed.

Lemma take_drop (k : nat) (s : string) : (take k s ++ drop k s)%string = s.
Proof.
  revert s. induction k as [|k IH]; intros s; [now destruct s|].
  destruct s as [|c s]; simpl; [reflexivity | now rewrite IH].
Qed.

Lemma take_length (k : nat) (s : string) :
  k <= String.length s -> String.length (take k s) = k.
Proof.
  revert s. induction k as [|k IH]; intros s H; [now destruct s|].
  destruct s as [|c s]; simpl in *; [lia | rewrite IH; lia].
Qed.

Lemma split_point_digits (a b : string) :
  forallb isdigit a = true ->
  split_point (a ++ String "." b)%string = (a, Some b).
Proof.
  induction a as [|c a IH]; simpl; [reflexivity|].
  rewrite andb_true_iff. intros [Hc Ha]. rewrite (IH Ha).
  destruct (Ascii.eqb c ".") eqn:E; [|reflexivity].
  apply Ascii.eqb_eq in E. subst c. discriminate.
Qed.

Lemma drop_zeros_pow (m : N) (k fuel : nat) (e : Z) :
  m <> 0%N -> (m mod 10)%N <> 0%N -> k < fuel ->
  drop_zeros fuel (m * 10 ^ N.of_nat k)%N e = (m, (e + Z.of_nat k)%Z).
Proof.
  intros Hm Hd. revert fuel e. induction k as [|k IH]; intros fuel e Hk;
    (destruct fuel as [|fuel]; [lia|]); cbn [drop_zeros].
  - rewrite N.mul_1_r.
    destruct (N.eqb_spec m 0); [contradiction|].
    destruct (N.eqb_spec (m mod 10) 0); [contradiction|].
    f_equal. lia.
  - rewrite Nnat.Nat2N.inj_succ, N.pow_succ_r'.
    replace (m * (10 * 10 ^ N.of_nat k))%N with (m * 10 ^ N.of_nat k * 10)%N by ring.
    assert (P : (10 ^ N.of_nat k <> 0)%N) by (apply N.pow_nonzero; discriminate).
    destruct (N.eqb_spec (m * 10 ^ N.of_nat k * 10) 0); [nia|].
    rewrite N.Div0.mod_mul, N.eqb_refl, N.div_mul by discriminate.
    rewrite IH by lia. f_equal. lia.
Qed.




End FloatRoundTrip.

Section PriceSecondRun.

Import PyStr PyFloat PyRepr.

Lemma parse_price_float (f : pyfloat) :
  parse_price_to_float (Float f)
  = if is_empty (strip (str_float f)) then Ok (Missing NA)
    else match float_of_str (keep price_char (str_float f)) with
         | Ok v => Ok (Float v)
         | Raise _ => Ok (Missing NA)
         end.
Proof.
  unfold parse_price_to_float. cbn [PyRepr.str pd_isna Frame.isna].
  now rewrite !keep_remove_char by reflexivity.
Qed.

Lemma digits_cons (m : N) :
  exists c t, digits_of_N m = String c t /\ isdigit c = true.
Proof.
  pose proof (digits_nonempty m) as E. pose proof (digits_isdigit m) as D.
  destruct (digits_of_N m) as [|c t]; [discriminate|].
  simpl in D. apply andb_true_iff in D as [D _]. eauto.
Qed.

Lemma exponent_minus_refused (f : pyfloat) :
  (decpt f < -3)%Z -> parse_price_to_float (Float f) = Ok (Missing NA).
Proof.
  intros H. rewrite parse_price_float.
  destruct (is_empty (strip (str_float f))); [reflexivity|].
  assert (E : exists a b, a <> ""%string
              /\ keep price_char (str_float f) = (a ++ String "-" b)%string).
  { unfold str_float. fold (decpt f).
    replace ((16 <? decpt f) || (decpt f <? -3))%Z with true
      by (symmetry; apply orb_true_iff; right; apply Z.ltb_lt; exact H).
    replace (decpt f - 1 <? 0)%Z with true by (symmetry; apply Z.ltb_lt; lia).
    destruct (digits_cons (f_mant f)) as [c [t [-> Hc]]].
    cbn [take drop]. rewrite !keep_app. cbn [keep].
    replace (price_char c) with true by (unfold price_char; now rewrite Hc).
    change (price_char "e") with false. change (price_char "-") with true.
    cbv iota. cbn [append].
    exists (keep price_char (if f_neg f then "-" else "")
            ++ String c (keep price_char
                 (if (1 <? String.length (String c t))%nat then String "." t else "")))%string.
    eexists. split.
    - destruct (keep price_char (if f_neg f then "-" else "")); discriminate.
    - rewrite !append_assoc_s. cbn [append]. reflexivity. }
  destruct E as [a [b [Ha ->]]]. now rewrite float_of_str_inner_minus.
Qed.

(** A price that Python prints with a negative exponent (a non-zero price
    under 0.0001 in magnitude) is not read back: of [1e-05] the regex keeps
    [1-05], which [float] refuses, so the second reading is missing. *)
Theorem tiny_price_not_read_back (f : pyfloat) :
  (decpt f < -3)%Z -> parse_price_to_float (Float f) = Ok (Missing NA).
Proof.
  intros H. rewrite <- (exponent_minus_refused f H). reflexivity.
Qed.

Lemma tiny_price_not_read_back_witness :
  parse_price_to_float (Float (mkFloat false 1 (-5))) = Ok (Missing NA).
Proof. apply tiny_price_not_read_back. vm_compute. reflexivity. Defined.

End PriceSecondRun.

Section PriceReadBack.

Import PyStr PyFloat PyRepr.

Lemma strip_nonblank (c : ascii) (t : string) :
  isspace c = false -> is_empty (strip (String c t)) = false.
Proof.
  intros H. unfold strip. cbn [rstrip]. rewrite H. cbn [andb lstrip].
  now rewrite H.
Qed.

Lemma isdigit_not_minus (c : ascii) : isdigit c = true -> Ascii.eqb c "-" = false.
Proof. destruct c as [[] [] [] [] [] [] [] []]; vm_compute; congruence. Qed.

Lemma isdigit_not_space (c : ascii) : isdigit c = true -> isspace c = false.
Proof. destruct c as [[] [] [] [] [] [] [] []]; vm_compute; congruence. Qed.

(** Reading back a printed number of the form [sign ip . fp]. *)
Lemma parse_price_printed (f : pyfloat) (ip fp : string) :
  str_float f = ((if f_neg f then "-" else "") ++ ip ++ String "." fp)%string ->
  forallb isdigit ip = true -> forallb isdigit fp = true ->
  is_empty ip = false ->
  make (f_neg f) ip fp = f ->
  parse_price_to_float (Float f) = Ok (Float f).
Proof.
  intros S Hip Hfp Hne M. rewrite parse_price_float, S.
  destruct ip as [|c ip']; [discriminate|].
  assert (Hc : isdigit c = true) by (simpl in Hip; now apply andb_true_iff in Hip).
  assert (P : forallb price_char (String c ip' ++ String "." fp)%string = true).
  { rewrite forallb_app, (isdigit_price_char _ Hip).
    change (forallb price_char (String "." fp))
      with (price_char "." && forallb price_char fp).
    now rewrite (isdigit_price_char _ Hfp). }
  assert (B : float_body (f_neg f) (String c ip' ++ String "." fp)%string = Ok f).
  { unfold float_body. rewrite (split_point_digits _ _ Hip), Hip, Hfp.
    cbn [andb negb is_empty]. now rewrite M. }
  change (String c ip' ++ String "." fp)%string
    with (String c (ip' ++ String "." fp)) in P, B.
  destruct (f_neg f) eqn:N; cbn [append].
  - rewrite strip_nonblank by reflexivity.
    change (keep price_char (String "-" (String c (ip' ++ String "." fp))))
      with (String "-" (keep price_char (String c (ip' ++ String "." fp)))).
    rewrite (keep_all _ _ P), float_of_str_cons.
    change (Ascii.eqb "-" "-") with true. cbv iota. now rewrite B.
  - rewrite strip_nonblank by now apply isdigit_not_space.
    rewrite (keep_all _ _ P), float_of_str_cons, (isdigit_not_minus _ Hc).
    now rewrite B.
Qed.

Lemma make_digits (neg : bool) (ip fp : string) (m : N) (e : Z) (k : nat) :
  normalised (mkFloat neg m e) ->
  N_of_digits 0 (ip ++ fp) = (m * 10 ^ N.of_nat k)%N ->
  (- Z.of_nat (String.length fp) + Z.of_nat k = e)%Z ->
  k <= String.length (ip ++ fp) ->
  make neg ip fp = mkFloat neg m e.
Proof.
  intros [N0 N1] V E K. unfold make. rewrite V. simpl in N0, N1.
  destruct (N.eq_dec m 0) as [->|Hm].
  - rewrite N.mul_0_l. cbn [drop_zeros N.eqb]. now rewrite (N0 eq_refl).
  - rewrite (drop_zeros_pow m k _ _ Hm (N1 Hm)) by lia. now rewrite E.
Qed.

Lemma positional_form_read_back (f : pyfloat) :
  normalised f -> (-3 <= decpt f <= 16)%Z ->
  parse_price_to_float (Float f) = Ok (Float f).
Proof.
  intros Nf R. destruct f as [neg m e]. unfold decpt in R. cbn [f_mant f_exp] in R.
  pose proof (digits_isdigit m) as Dd. pose proof (digits_nonempty m) as Dn.
  pose proof (N_of_digits_digits m) as Dv.
  set (ds := digits_of_N m) in *. set (n := String.length ds) in *.
  assert (Hstr : str_float (mkFloat neg m e)
              = ((if neg then "-" else "")
                 ++ (if (Z.of_nat n + e <=? 0)%Z then
                       "0." ++ zeros (Z.abs_nat (Z.of_nat n + e)) ++ ds
                     else if (Z.of_nat n <=? Z.of_nat n + e)%Z then
                       ds ++ zeros (Z.to_nat (Z.of_nat n + e) - n) ++ ".0"
                     else take (Z.to_nat (Z.of_nat n + e)) ds
                          ++ String "." (drop (Z.to_nat (Z.of_nat n + e)) ds)))%string).
  { unfold str_float. cbn [f_mant f_exp f_neg]. fold ds. fold n.
    replace ((16 <? Z.of_nat n + e) || (Z.of_nat n + e <? -3))%Z with false;
      [reflexivity|].
    symmetry. apply orb_false_iff. split; apply Z.ltb_ge; lia. }
  destruct (Z.leb_spec (Z.of_nat n + e) 0) as [C1|C1].
  - (* 0.000ddd *)
    apply (parse_price_printed _ "0" (zeros (Z.abs_nat (Z.of_nat n + e)) ++ ds)).
    + exact Hstr.
    + reflexivity.
    + now rewrite forallb_app, zeros_isdigit, Dd.
    + reflexivity.
    + cbn [f_neg]. apply (make_digits neg _ _ m e 0 Nf).
      * cbn [append N_of_digits]. rewrite N_of_digits_app, N_of_digits_zeros.
        change (10 * 0 + digit_val "0")%N with 0%N. rewrite N.mul_0_l, Dv.
        simpl. lia.
      * rewrite append_length, zeros_length. fold n. lia.
      * lia.
  - destruct (Z.leb_spec (Z.of_nat n) (Z.of_nat n + e)) as [C2|C2].
    + (* ddd000.0 *)
      apply (parse_price_printed _ (ds ++ zeros (Z.to_nat (Z.of_nat n + e) - n)) "0").
      * rewrite Hstr, !append_assoc_s. reflexivity.
      * now rewrite forallb_app, zeros_isdigit, Dd.
      * reflexivity.
      * destruct ds; [discriminate | reflexivity].
      * cbn [f_neg].
        apply (make_digits neg _ _ m e (S (Z.to_nat (Z.of_nat n + e) - n)) Nf).
        -- rewrite !N_of_digits_app, Dv, N_of_digits_zeros. cbn [N_of_digits].
           change (digit_val "0") with 0%N.
           rewrite Nnat.Nat2N.inj_succ, N.pow_succ_r'. ring.
        -- simpl String.length. lia.
        -- rewrite !append_length, zeros_length. simpl. lia.
    + (* dd.ddd *)
      assert (L : Z.to_nat (Z.of_nat n + e) <= n) by lia.
      pose proof (take_drop (Z.to_nat (Z.of_nat n + e)) ds) as TD.
      pose proof Dd as Dd'. rewrite <- TD, forallb_app in Dd'.
      apply andb_true_iff in Dd' as [Dt Dr].
      apply (parse_price_printed _ (take (Z.to_nat (Z.of_nat n + e)) ds)
                                   (drop (Z.to_nat (Z.of_nat n + e)) ds)).
      * exact Hstr.
      * exact Dt.
      * exact Dr.
      * pose proof (take_length _ ds L) as TL.
        destruct (take (Z.to_nat (Z.of_nat n + e)) ds); [simpl in TL; lia | reflexivity].
      * cbn [f_neg]. apply (make_digits neg _ _ m e 0 Nf).
        -- rewrite TD, Dv. simpl. lia.
        -- pose proof (f_equal String.length TD) as TL.
           rewrite append_length, (take_length _ ds L) in TL. fold n in TL. lia.
        -- lia.
Qed.

(** A price that Python prints in positional form (zero, or a magnitude
    from 0.0001 up to but not including 1e16) is read back as itself. *)
Theorem positional_price_read_back (f : pyfloat) :
  normalised f -> (-3 <= decpt f <= 16)%Z ->
  parse_price_to_float (Float f) = Ok (Float f).
Proof.
  intros Nf R. destruct Nf as [N0 N1].
  apply positional_form_read_back; [split; assumption | exact R].
Qed.

Lemma positional_price_read_back_witness :
  parse_price_to_float (Float (mkFloat false 12345 (-1)))
  = Ok (Float (mkFloat false 12345 (-1))).
Proof.
  apply positional_price_read_back.
  - split; simpl; [discriminate | intros _; vm_compute; discriminate].
  - vm_compute. split; discriminate.
Defined.



End PriceReadBack.

(** * Running the pipeline on its own output *)

Section SelectSelf.

Import Frame.




Lemma NoDup_app_intro {A : Type} (l1 l2 : list A) :
  NoDup l1 -> NoDup l2 -> (forall a, In a l1 -> ~ In a l2) -> NoDup (l1 ++ l2).
Proof.
  induction 1 as [|a l1 Ha N1 IH]; simpl; intros N2 D; [exact N2|].
  constructor.
  - rewrite in_app_iff. intros [H|H]; [contradiction|]. apply (D a); auto.
  - apply IH; auto.
Qed.




Lemma update_row_absent (cols : list string) (c : string) (f : cell -> py cell)
      (r : list cell) :
  ~ In c cols -> update_row cols c f r = Ok r.
Proof.
  revert r. induction cols as [|k cols IH]; intros [|x r] H; simpl; try reflexivity.
  destruct (String.eqb k c) eqn:E.
  - apply String.eqb_eq in E. subst. simpl in H. tauto.
  - simpl. rewrite IH by (simpl in H; tauto). reflexivity.
Qed.

Lemma update_row_fix (cols : list string) (c : string) (f : cell -> py cell)
      (r : list cell) :
  NoDup cols -> f (get cols r c) = Ok (get cols r c) ->
  update_row cols c f r = Ok r.
Proof.
  intros N. revert r. induction N as [|k cols Hk N IH]; intros [|x r] H; simpl;
    try reflexivity.
  simpl in H. destruct (String.eqb k c) eqn:E.
  - apply String.eqb_eq in E. subst k. rewrite H. simpl.
    now rewrite update_row_absent.
  - simpl. now rewrite IH.
Qed.

End SelectSelf.

Lemma update_chain_fix (ups : list step) (cols : list string) (r : list cell) :
  NoDup cols ->
  (forall c f, In (c, f) ups -> f (Frame.get cols r c) = Ok (Frame.get cols r c)) ->
  update_chain ups cols r = Ok r.
Proof.
  intros N. induction ups as [|[c f] ups IH]; intros H; simpl; [reflexivity|].
  rewrite update_row_fix by (auto; apply H; now left). simpl.
  apply IH. intros; apply H. now right.
Qed.





(** ** The cell rules on cells they have produced *)

Section CellFixpoints.

Import PyStr PyRepr.









End CellFixpoints.

Section SecondRun.

Variable td : cell -> py (option datetime).






Variables df out : DataFrame.
Hypothesis accepted : normalize_df td df = Ok out.






End SecondRun.


